(** * Avalonia project analyzer: a shallow embedding and its properties

    The development follows [Avalonia.NET.Tools/avalonia_project_analyzer.py].
    Python strings are sequences of Unicode code points, the analyzer object
    and the standard output are threaded through a state-and-exception monad,
    and the file system is a tree of directories and files without symbolic
    links. *)

From Stdlib Require Import String Ascii Decimal DecimalString.
From Stdlib Require Import NArith Arith Bool Lia List.
Import ListNotations.

Set Implicit Arguments.

(* ================================================================= *)
(** ** Python strings *)

Module PyStr.

(** A character is its code point; a [str] is a list of them. *)
Definition char := N.
Definition str := list char.

(** ASCII literal of the source text as a [str]. *)
Definition u (s : string) : str :=
  map N_of_ascii (list_ascii_of_string s).

Definition chr (a : ascii) : char := N_of_ascii a.

Fixpoint eqb (a b : str) : bool :=
  match a, b with
  | [], [] => true
  | x :: a', y :: b' => N.eqb x y && eqb a' b'
  | _, _ => false
  end.

(** [s.startswith(p)] *)
Fixpoint startswith (p s : str) : bool :=
  match p, s with
  | [], _ => true
  | x :: p', y :: s' => N.eqb x y && startswith p' s'
  | _ :: _, [] => false
  end.

(** [needle in hay] *)
Fixpoint contains (needle hay : str) : bool :=
  startswith needle hay ||
  match hay with
  | [] => false
  | _ :: hay' => contains needle hay'
  end.

(** [str.isspace] on one character: the code points CPython treats as
    white space. *)
Definition isspace (c : char) : bool :=
  (((9 <=? c) && (c <=? 13)) || ((28 <=? c) && (c <=? 32))
   || (c =? 133) || (c =? 160) || (c =? 5760)
   || ((8192 <=? c) && (c <=? 8202))
   || (c =? 8232) || (c =? 8233) || (c =? 8239) || (c =? 8287)
   || (c =? 12288))%N.

Fixpoint lstrip (s : str) : str :=
  match s with
  | c :: s' => if isspace c then lstrip s' else s
  | [] => []
  end.

Definition rstrip (s : str) : str := List.rev (lstrip (List.rev s)).

(** [s.strip()] *)
Definition strip (s : str) : str := rstrip (lstrip s).

(** [s.split(sep)] for a one-character separator. *)
Fixpoint split (sep : char) (s : str) : list str :=
  match s with
  | [] => [[]]
  | c :: s' =>
      if N.eqb c sep then [] :: split sep s'
      else match split sep s' with
           | l :: ls => (c :: l) :: ls
           | [] => [[c]]
           end
  end.

(** [sep.join(parts)] *)
Fixpoint join (sep : str) (parts : list str) : str :=
  match parts with
  | [] => []
  | [p] => p
  | p :: ps => p ++ sep ++ join sep ps
  end.

(** [str(n)] for a non-negative integer. *)
Definition str_of_nat (n : nat) : str :=
  u (NilEmpty.string_of_uint (Nat.to_uint n)).

(** ["c" * n] *)
Definition times (c : str) (n : nat) : str := concat (repeat c n).

Definition nl : char := 10%N.

End PyStr.

Import PyStr.

(* ================================================================= *)
(** ** The regular expressions of the source

    Only three shapes occur: a literal, [[^c]*] and the group [([^c]+)].
    A pattern is a list of such items; matching is greedy with
    backtracking, as in [re]. *)

Module Re.

Inductive item :=
| Lit (s : str)            (* literal text *)
| StarNot (c : char)       (* [^c]*   *)
| GroupPlusNot (c : char). (* ([^c]+) *)

Definition pattern := list item.

Fixpoint strip_prefix (p s : str) : option str :=
  match p, s with
  | [], _ => Some s
  | x :: p', y :: s' => if N.eqb x y then strip_prefix p' s' else None
  | _ :: _, [] => None
  end.

Section Match.
Variable A : Type.

(** [[^c]*] followed by the continuation [k]: the longest run first. *)
Fixpoint star_not (c : char) (k : str -> option A) (s : str) : option A :=
  match s with
  | x :: s' =>
      if N.eqb x c then k s
      else match star_not c k s' with
           | Some r => Some r
           | None => k s
           end
  | [] => k []
  end.

(** [([^c]+)] followed by [k], which receives the captured text. *)
Fixpoint plus_not (c : char) (k : str -> str -> option A)
         (acc : str) (s : str) : option A :=
  match s with
  | x :: s' =>
      if N.eqb x c then None
      else match plus_not c k (acc ++ [x]) s' with
           | Some r => Some r
           | None => k (acc ++ [x]) s'
           end
  | [] => None
  end.

(** Match [p] at the start of [s]; [k] receives the group captured so
    far and the unread text. *)
Fixpoint match_here (p : pattern) (k : option str -> str -> option A)
         (g : option str) (s : str) : option A :=
  match p with
  | [] => k g s
  | Lit l :: p' =>
      match strip_prefix l s with
      | Some s' => match_here p' k g s'
      | None => None
      end
  | StarNot c :: p' => star_not c (match_here p' k g) s
  | GroupPlusNot c :: p' =>
      plus_not c (fun grp s' => match_here p' k (Some grp) s') [] s
  end.
End Match.

(** A match at the start of [s]: the captured group and the unread text. *)
Definition match_at (p : pattern) (s : str) : option (option str * str) :=
  match_here p (fun g rest => Some (g, rest)) None s.

(** [re.search(p, s)]: the leftmost match. *)
Fixpoint search (p : pattern) (s : str) : option (option str * str) :=
  match match_at p s with
  | Some m => Some m
  | None => match s with
            | [] => None
            | _ :: s' => search p s'
            end
  end.

(** [re.findall(p, s)] for a pattern with one group whose matches are
    never empty: the groups of the successive non-overlapping matches.
    [skip] counts the characters of the current match still to pass. *)
Fixpoint findall_from (p : pattern) (skip : nat) (s : str) : list str :=
  match skip with
  | S skip' =>
      match s with
      | [] => []
      | _ :: s' => findall_from p skip' s'
      end
  | O =>
      match match_at p s with
      | Some (g, rest) =>
          let grp := match g with Some t => t | None => [] end in
          match s with
          | [] => [grp]
          | _ :: s' =>
              grp :: findall_from p (length s - length rest - 1) s'
          end
      | None =>
          match s with
          | [] => []
          | _ :: s' => findall_from p 0 s'
          end
      end
  end.

Definition findall (p : pattern) (s : str) : list str := findall_from p 0 s.

(** *** Reading a pattern from its text *)

(** Characters with a meaning of their own in a pattern. *)
Definition is_meta (c : char) : bool :=
  existsb (N.eqb c) (u ".^$*+?{}[]\|()").

Definition is_chr (a : ascii) (c : char) : bool := N.eqb c (chr a).

(** [re.compile] on the fragment the source uses; [None] outside it. *)
Fixpoint compile (s : str) : option pattern :=
  match s with
  | [] => Some []
  | x :: rest =>
      let literal :=
        if is_meta x then None
        else option_map (cons (Lit [x])) (compile rest) in
      match rest with
      | x2 :: x3 :: x4 :: x5 :: rest5 =>
          if is_chr "[" x && is_chr "^" x2 && negb (is_meta x3)
             && is_chr "]" x4 && is_chr "*" x5
          then option_map (cons (StarNot x3)) (compile rest5)
          else
            match rest5 with
            | x6 :: x7 :: rest7 =>
                if is_chr "(" x && is_chr "[" x2 && is_chr "^" x3
                   && negb (is_meta x4) && is_chr "]" x5
                   && is_chr "+" x6 && is_chr ")" x7
                then option_map (cons (GroupPlusNot x4)) (compile rest7)
                else literal
            | _ => literal
            end
      | _ => literal
      end
  end.

(** [re.search(text, s)]; a pattern outside the fragment matches
    nothing here. *)
Definition re_search (text s : str) : option (option str * str) :=
  match compile text with
  | Some p => search p s
  | None => None
  end.

(** [re.findall(text, s)] *)
Definition re_findall (text s : str) : list str :=
  match compile text with
  | Some p => findall p s
  | None => []
  end.

End Re.

(* ================================================================= *)
(** ** Exceptions and outcomes *)

(** The exception classes that can occur, each with its message
    ([str(e)]).  All of them derive from [Exception]. *)
Inductive exn :=
| OSError (msg : str)
| UnicodeDecodeError (msg : str)
| ParseError (msg : str)
| ValueError (msg : str)
| EOFError (msg : str).

Definition exn_str (e : exn) : str :=
  match e with
  | OSError m | UnicodeDecodeError m | ParseError m
  | ValueError m | EOFError m => m
  end.

(** [except ET.ParseError] *)
Definition is_ParseError (e : exn) : bool :=
  match e with ParseError _ => true | _ => false end.

(** [except Exception] *)
Definition is_Exception (e : exn) : bool := true.

Inductive outcome (A : Type) :=
| Return (a : A)
| Raise (e : exn).
Arguments Return {A} a.
Arguments Raise {A} e.

(* ================================================================= *)
(** ** xml.etree.ElementTree *)

Module ET.

#[warnings="-register-all"]
Inductive Element :=
| Elem (tag : str) (attrib : list (str * str)) (text : option str)
       (children : list Element).

Definition tag (e : Element) : str :=
  match e with Elem t _ _ _ => t end.
Definition attrib (e : Element) : list (str * str) :=
  match e with Elem _ a _ _ => a end.
Definition text (e : Element) : option str :=
  match e with Elem _ _ x _ => x end.
Definition children (e : Element) : list Element :=
  match e with Elem _ _ _ c => c end.

(** [e.get(key, default)] *)
Fixpoint lookup_attr (key : str) (a : list (str * str)) : option str :=
  match a with
  | [] => None
  | (k, v) :: a' => if eqb k key then Some v else lookup_attr key a'
  end.

Definition get (e : Element) (key default : str) : str :=
  match lookup_attr key (attrib e) with
  | Some v => v
  | None => default
  end.

(** [e.iter()]: the element and its descendants in document order. *)
Fixpoint iter (e : Element) : list Element :=
  match e with
  | Elem _ _ _ cs =>
      e :: (fix iter_all (l : list Element) : list Element :=
              match l with
              | [] => []
              | c :: l' => iter c ++ iter_all l'
              end) cs
  end.

Definition has_tag (t : str) (e : Element) : bool := eqb (tag e) t.

(** [e.findall(".//t")]: the proper descendants with tag [t]. *)
Definition findall_descendants (e : Element) (t : str) : list Element :=
  filter (has_tag t) (tl (iter e)).

(** [e.findall("t")]: the children with tag [t]. *)
Definition findall (e : Element) (t : str) : list Element :=
  filter (has_tag t) (children e).

(** [e.find(".//t")] *)
Definition find_descendant (e : Element) (t : str) : option Element :=
  hd_error (findall_descendants e t).

End ET.

(* ================================================================= *)
(** ** pathlib and the file system *)

Definition is_empty (s : str) : bool :=
  match s with [] => true | _ => false end.

(** A pure POSIX path: whether it is anchored at the root, and its
    components. *)
Record Path := mkPath { absolute : bool; parts : list str }.

Definition slash : char := 47%N.
Definition dot : char := 46%N.

(** [Path(s)]: empty and [.] components are dropped, [..] is kept.  A
    text with exactly two leading slashes, whose root pathlib keeps
    apart, is read as an ordinary absolute path; this shows only in the
    text of a path inside an error message. *)
Definition Path_of_str (s : str) : Path :=
  {| absolute := startswith [slash] s;
     parts := filter (fun c => negb (is_empty c || eqb c [dot]))
                     (split slash s) |}.

(** [p / s] *)
Definition joinpath (p : Path) (s : str) : Path :=
  let q := Path_of_str s in
  if absolute q then q
  else {| absolute := absolute p; parts := parts p ++ parts q |}.

(** The path of the directory entry [name] of [p]. *)
Definition child (p : Path) (name : str) : Path :=
  {| absolute := absolute p; parts := parts p ++ [name] |}.

(** [str(p)] *)
Definition str_of_Path (p : Path) : str :=
  if absolute p then slash :: join [slash] (parts p)
  else if is_empty (join [slash] (parts p)) then [dot]
       else join [slash] (parts p).

(** [p.name] *)
Definition name (p : Path) : str := last (parts p) [].

(** [s.rfind(c)], [None] for -1. *)
Fixpoint rfind (c : char) (s : str) : option nat :=
  match s with
  | [] => None
  | x :: s' =>
      match rfind c s' with
      | Some i => Some (S i)
      | None => if N.eqb x c then Some 0 else None
      end
  end.

(** [p.stem] *)
Definition stem (p : Path) : str :=
  let nm := name p in
  match rfind dot nm with
  | Some i => if (0 <? i) && (i <? length nm - 1) then firstn i nm else nm
  | None => nm
  end.

Fixpoint strip_parts (base l : list str) : option (list str) :=
  match base, l with
  | [], _ => Some l
  | b :: base', x :: l' => if eqb b x then strip_parts base' l' else None
  | _ :: _, [] => None
  end.

(** The text of the [ValueError] of [relative_to]. *)
Definition not_in_subpath (p base : Path) : str :=
  u "'" ++ str_of_Path p ++ u "' is not in the subpath of '"
    ++ str_of_Path base
    ++ u "' OR one path is relative and the other is absolute.".

(** [p.relative_to(base).parts] *)
Definition relative_to (p base : Path) : outcome (list str) :=
  if Bool.eqb (absolute p) (absolute base) then
    match strip_parts (parts base) (parts p) with
    | Some rest => Return rest
    | None => Raise (ValueError (not_in_subpath p base))
    end
  else Raise (ValueError (not_in_subpath p base)).

(** A file is represented by what the two readers used by the analyzer
    return on it: [Path.read_text(encoding='utf-8')] and [ET.parse]. *)
#[warnings="-register-all"]
Inductive node :=
| File (text : outcome str) (xml : outcome ET.Element)
| Dir (entries : list (str * node)).

(** The file system: the root directory and the working directory of the
    process (components from the root). *)
Record World := mkWorld { root : node; cwd : list str }.

Fixpoint assoc (k : str) (es : list (str * node)) : option node :=
  match es with
  | [] => None
  | (k', n) :: es' => if eqb k' k then Some n else assoc k es'
  end.

Fixpoint lookup (n : node) (ps : list str) : option node :=
  match ps with
  | [] => Some n
  | p :: ps' =>
      match n with
      | Dir es => match assoc p es with
                  | Some c => lookup c ps'
                  | None => None
                  end
      | File _ _ => None
      end
  end.

Definition is_Dir (o : option node) : bool :=
  match o with Some (Dir _) => true | _ => false end.

Definition is_Some {A} (o : option A) : bool :=
  match o with Some _ => true | None => false end.

(** Walk the components [comps] from the directory [cur]: an empty
    component or [.] stays, [..] goes up, a name goes down. *)
Fixpoint walk (r : node) (cur : list str) (comps : list str)
  : option (list str) :=
  match comps with
  | [] => if is_Some (lookup r cur) then Some cur else None
  | c :: comps' =>
      if is_Dir (lookup r cur) then
        if is_empty c || eqb c [dot] then walk r cur comps'
        else if eqb c [dot; dot] then walk r (removelast cur) comps'
        else walk r (cur ++ [c]) comps'
      else None
  end.

(** [os.stat] *)
Definition stat (w : World) (anchored : bool) (comps : list str)
  : option node :=
  match walk (root w) (if anchored then [] else cwd w) comps with
  | Some canon => lookup (root w) canon
  | None => None
  end.

Definition Path_stat (w : World) (p : Path) : option node :=
  stat w (absolute p) (parts p).

(** [p.exists()], [p.is_dir()] and [p.is_file()] on a system whose
    [os.stat] never fails with anything but not-found; the module
    [Strict] below lifts that restriction. *)
Definition Path_exists (w : World) (p : Path) : bool :=
  is_Some (Path_stat w p).
Definition Path_is_dir (w : World) (p : Path) : bool :=
  is_Dir (Path_stat w p).
Definition Path_is_file (w : World) (p : Path) : bool :=
  match Path_stat w p with Some (File _ _) => true | _ => false end.

(** [os.path.exists(s)] *)
Definition os_path_exists (w : World) (s : str) : bool :=
  negb (is_empty s)
  && is_Some (stat w (startswith [slash] s) (split slash s)).

Definition errno_msg (what : string) (p : Path) : str :=
  u what ++ u ": '" ++ str_of_Path p ++ u "'".

(** [p.read_text(encoding='utf-8')] *)
Definition read_text (w : World) (p : Path) : outcome str :=
  match Path_stat w p with
  | Some (File t _) => t
  | Some (Dir _) => Raise (OSError (errno_msg "[Errno 21] Is a directory" p))
  | None => Raise (OSError (errno_msg "[Errno 2] No such file or directory" p))
  end.

(** [ET.parse(p).getroot()] *)
Definition ET_parse (w : World) (p : Path) : outcome ET.Element :=
  match Path_stat w p with
  | Some (File _ x) => x
  | Some (Dir _) => Raise (OSError (errno_msg "[Errno 21] Is a directory" p))
  | None => Raise (OSError (errno_msg "[Errno 2] No such file or directory" p))
  end.

(** *** Globbing *)

Definition star : char := 42%N.
Definition qmark : char := 63%N.
Definition lbracket : char := 91%N.

(** A pattern component with a wild card is matched against the directory
    entries, any other is looked up by name. *)
Definition is_wildcard_pattern (pat : str) : bool :=
  contains [star] pat || contains [qmark] pat || contains [lbracket] pat.

(** [fnmatch] for the wild cards [*] and [?]; the patterns of the source
    have no character class. *)
Fixpoint fnmatch (pat nm : str) : bool :=
  match pat with
  | [] => is_empty nm
  | c :: pat' =>
      if N.eqb c star then
        (fix any_run (n : str) : bool :=
           fnmatch pat' n ||
           match n with
           | [] => false
           | _ :: n' => any_run n'
           end) nm
      else
        match nm with
        | [] => false
        | x :: nm' => (N.eqb c qmark || N.eqb c x) && fnmatch pat' nm'
        end
  end.

Definition entries_of (o : option node) : list (str * node) :=
  match o with Some (Dir es) => es | _ => [] end.

(** [list(p.glob(pat))] for a pattern of one component: entries in the
    order of the directory listing. *)
Definition glob (w : World) (p : Path) (pat : str) : list Path :=
  if Path_is_dir w p then
    if is_wildcard_pattern pat then
      map (child p)
          (filter (fnmatch pat) (map fst (entries_of (Path_stat w p))))
    else if Path_exists w (child p pat) then [child p pat] else []
  else [].

(** The recursive walk of [rglob]: the matching entries of a directory,
    then those of each subdirectory in turn. *)
Fixpoint rglob_node (pat : str) (here : Path) (n : node) : list Path :=
  match n with
  | File _ _ => []
  | Dir es =>
      map (child here) (filter (fnmatch pat) (map fst es))
      ++ (fix subdirs (l : list (str * node)) : list Path :=
            match l with
            | [] => []
            | (nm, c) :: l' => rglob_node pat (child here nm) c ++ subdirs l'
            end) es
  end.

(** [list(p.rglob(pat))] *)
Definition rglob (w : World) (p : Path) (pat : str) : list Path :=
  match Path_stat w p with
  | Some n => rglob_node pat p n
  | None => []
  end.

(* ================================================================= *)
(** ** The analyzer object and the monad of its methods *)

Record Analyzer := mkAnalyzer {
  project_path : Path;
  issues : list str;
  warnings : list str;
  info : list str
}.

(** [AvaloniaProjectAnalyzer.__init__] *)
Definition init (project_path : str) : Analyzer :=
  {| project_path := Path_of_str project_path;
     issues := []; warnings := []; info := [] |}.

(** What a method can change: the object and the standard output. *)
Record State := mkState { self : Analyzer; stdout : str }.

(** A method either returns or raises; in both cases the changes made so
    far remain. *)
Definition M (A : Type) : Type := State -> outcome A * State.

Definition ret {A} (a : A) : M A := fun st => (Return a, st).

Definition bind {A B} (m : M A) (k : A -> M B) : M B :=
  fun st =>
    match m st with
    | (Return a, st') => k a st'
    | (Raise e, st') => (Raise e, st')
    end.

Declare Scope py_scope.
Delimit Scope py_scope with py.
Notation "x <- m ;; k" := (bind m (fun x => k))
  (at level 61, m at next level, right associativity) : py_scope.
Notation "m ;; k" := (bind m (fun _ => k))
  (at level 61, right associativity) : py_scope.
Local Open Scope py_scope.

(** A library call inside a method. *)
Definition lift {A} (o : outcome A) : M A := fun st => (o, st).

(** [try: body except <class> as e: handler e] *)
Definition try_except {A} (body : M A) (catches : exn -> bool)
           (handler : exn -> M A) : M A :=
  fun st =>
    match body st with
    | (Return a, st') => (Return a, st')
    | (Raise e, st') => if catches e then handler e st' else (Raise e, st')
    end.

(** [for x in l: body x] *)
Fixpoint for_each {A} (l : list A) (body : A -> M unit) : M unit :=
  match l with
  | [] => ret tt
  | x :: l' => body x ;; for_each l' body
  end.

Definition get_self : M Analyzer := fun st => (Return (self st), st).

Definition print (s : str) : M unit :=
  fun st => (Return tt, {| self := self st; stdout := stdout st ++ s ++ [nl] |}).

Definition issues_append (s : str) : M unit :=
  fun st =>
    (Return tt,
     {| self := {| project_path := project_path (self st);
                   issues := issues (self st) ++ [s];
                   warnings := warnings (self st);
                   info := info (self st) |};
        stdout := stdout st |}).

Definition warnings_append (s : str) : M unit :=
  fun st =>
    (Return tt,
     {| self := {| project_path := project_path (self st);
                   issues := issues (self st);
                   warnings := warnings (self st) ++ [s];
                   info := info (self st) |};
        stdout := stdout st |}).

Definition info_append (s : str) : M unit :=
  fun st =>
    (Return tt,
     {| self := {| project_path := project_path (self st);
                   issues := issues (self st);
                   warnings := warnings (self st);
                   info := info (self st) ++ [s] |};
        stdout := stdout st |}).

(** [enumerate(l, start)] *)
Fixpoint enumerate {A} (start : nat) (l : list A) : list (nat * A) :=
  match l with
  | [] => []
  | x :: l' => (start, x) :: enumerate (S start) l'
  end.

(* ================================================================= *)
(** ** AvaloniaProjectAnalyzer *)

Definition dq : char := 34%N.

Definition nonempty {A} (l : list A) : bool :=
  match l with [] => false | _ => true end.

(** [find_line_number]: the number of the first line that contains
    [search_term] as a substring, counting from 1; 0 when there is none. *)
Fixpoint find_line_from (i : nat) (lines : list str) (search_term : str)
  : nat :=
  match lines with
  | [] => 0
  | line :: lines' =>
      if contains search_term line then i
      else find_line_from (S i) lines' search_term
  end.

Definition find_line_number (content search_term : str) : nat :=
  find_line_from 1 (split nl content) search_term.

Definition required_files : list str :=
  [u "*.csproj"; u "App.axaml"; u "App.axaml.cs"].

Definition typos : list (str * str) :=
  [(u "ColumnDefinin", u "ColumnDefinitions");
   (u "RowDefinin", u "RowDefinitions");
   (u "MultiClass", u "Classes")].

Definition unsupported_props : list str :=
  [u "ColumnGap"; u "RowGap"; u "Padding"].

(** The text [f'<StackPanel[^>]*{prop}='] *)
Definition stackpanel_pattern (prop : str) : str :=
  u "<StackPanel[^>]*" ++ prop ++ u "=".

(** The pattern text of the [x:Class] search: the attribute name, [=],
    a double quote, a group of one or more characters other than a
    double quote, and a double quote. *)
Definition xclass_pattern : str :=
  u "x:Class=" ++ [dq] ++ u "([^" ++ [dq] ++ u "]+)" ++ [dq].

(** The pattern text of the [Source] search, of the same shape. *)
Definition source_pattern : str :=
  u "Source=" ++ [dq] ++ u "([^" ++ [dq] ++ u "]+)" ++ [dq].

Definition missing_file_msg (pattern : str) : str :=
  u "Missing required file: " ++ pattern.

Definition typo_msg (file : str) (line_num : nat) (typo correct : str) : str :=
  file ++ u ":" ++ str_of_nat line_num ++ u ": Found '" ++ typo
       ++ u "' (should be '" ++ correct ++ u "')".

Definition padding_msg (file : str) (line_num : nat) : str :=
  file ++ u ":" ++ str_of_nat line_num
       ++ u ": StackPanel doesn't support Padding (use Border instead)".

Definition unsupported_msg (file : str) (line_num : nat) (prop : str) : str :=
  file ++ u ":" ++ str_of_nat line_num ++ u ": " ++ prop
       ++ u " not supported in Avalonia 11.0.7 (use Margin instead)".

Definition missing_style_msg (style_path : str) : str :=
  u "App.axaml references missing style: " ++ style_path.

Definition no_packages_msg : str :=
  u "No Avalonia packages found in project file".

Section Methods.

Variable w : World.

Definition check_project_structure : M unit :=
  print (0x1F4C1%N :: u " Checking project structure...") ;;
  a <- get_self ;;
  for_each required_files (fun pattern =>
    let matching_files := glob w (project_path a) pattern in
    match matching_files with
    | [] => issues_append (missing_file_msg pattern)
    | first :: _ => info_append (u "Found: " ++ name first)
    end) ;;
  (let views_folder := joinpath (project_path a) (u "Views") in
   if negb (Path_exists w views_folder) then
     warnings_append (u "Views folder doesn't exist")
   else
     let view_files := glob w views_folder (u "*.axaml") in
     info_append (u "Found " ++ str_of_nat (length view_files)
                    ++ u " view files")) ;;
  (let controls_folder := joinpath (project_path a) (u "Controls") in
   if Path_exists w controls_folder then
     let control_files := glob w controls_folder (u "*.axaml") in
     info_append (u "Found " ++ str_of_nat (length control_files)
                    ++ u " control files")
   else ret tt).

(** The [name v version] entries collected by the two nested loops. *)
Definition avalonia_packages_of (root : ET.Element) : list str :=
  flat_map (fun item_group =>
    flat_map (fun package_ref =>
      let include := ET.get package_ref (u "Include") (u "") in
      if contains (u "Avalonia") include then
        let version := ET.get package_ref (u "Version") (u "Unknown") in
        [include ++ u " v" ++ version]
      else [])
      (ET.findall item_group (u "PackageReference")))
    (ET.findall_descendants root (u "ItemGroup")).

Definition check_csproj_file : M unit :=
  print (0x1F527%N :: u " Checking project file...") ;;
  a <- get_self ;;
  let csproj_files := glob w (project_path a) (u "*.csproj") in
  match csproj_files with
  | [] => issues_append (u "No .csproj file found")
  | csproj_path :: _ =>
      try_except
        (root <- lift (ET_parse w csproj_path) ;;
         let avalonia_packages := avalonia_packages_of root in
         (if nonempty avalonia_packages then
            info_append (u "Avalonia packages:") ;;
            for_each avalonia_packages (fun pkg =>
              info_append (u "  - " ++ pkg))
          else issues_append no_packages_msg) ;;
         match ET.find_descendant root (u "UseAvalonia") with
         | None =>
             warnings_append
               (u "UseAvalonia property not found in project file")
         | Some use_avalonia =>
             match ET.text use_avalonia with
             | Some t =>
                 if eqb t (u "true") then ret tt
                 else issues_append
                        (u "UseAvalonia property is not set to true")
             | None =>
                 issues_append (u "UseAvalonia property is not set to true")
             end
         end)
        is_ParseError
        (fun e =>
           issues_append (u "Failed to parse .csproj file: " ++ exn_str e))
  end.

Definition get_expected_class_name (xaml_file : Path) : M str :=
  a <- get_self ;;
  relative_parts <- lift (relative_to xaml_file (project_path a)) ;;
  let parts := removelast relative_parts in
  let class_name := stem xaml_file in
  let namespace :=
    if nonempty parts then u "JobFinderApp.Desktop." ++ join [dot] parts
    else u "JobFinderApp.Desktop" in
  ret (namespace ++ u "." ++ class_name).

(** The three scans of [check_single_xaml_file], in its order. *)
Definition check_typos (file content : str) : M unit :=
  for_each typos (fun '(typo, correct) =>
    if contains typo content then
      let line_num := find_line_number content typo in
      issues_append (typo_msg file line_num typo correct)
    else ret tt).

Definition check_unsupported_props (file content : str) : M unit :=
  for_each unsupported_props (fun prop =>
    let pattern := stackpanel_pattern prop in
    if is_Some (Re.re_search pattern content) then
      let line_num := find_line_number content pattern in
      if eqb prop (u "Padding") then
        issues_append (padding_msg file line_num)
      else
        issues_append (unsupported_msg file line_num prop)
    else ret tt).

Definition check_xclass (xaml_file : Path) (content : str) : M unit :=
  match Re.re_search xclass_pattern content with
  | Some (group1, _) =>
      let declared_class :=
        match group1 with Some g => g | None => [] end in
      expected_class <- get_expected_class_name xaml_file ;;
      if nonempty expected_class
         && negb (eqb declared_class expected_class) then
        warnings_append
          (name xaml_file ++ u ": x:Class '" ++ declared_class
             ++ u "' might not match file location (expected '"
             ++ expected_class ++ u "')")
      else ret tt
  | None => ret tt
  end.

Definition check_single_xaml_file (xaml_file : Path) : M unit :=
  try_except
    (content <- lift (read_text w xaml_file) ;;
     if is_empty (strip content) then
       issues_append (name xaml_file ++ u ": File is empty")
     else if negb (startswith (u "<") (strip content)) then
       issues_append (name xaml_file ++ u ": No root element")
     else
       check_typos (name xaml_file) content ;;
       check_unsupported_props (name xaml_file) content ;;
       check_xclass xaml_file content)
    is_Exception
    (fun e =>
       issues_append
         (name xaml_file ++ u ": Failed to read file - " ++ exn_str e)).

Definition check_xaml_files : M unit :=
  print (0x1F4C4%N :: u " Checking XAML files...") ;;
  a <- get_self ;;
  let xaml_files := rglob w (project_path a) (u "*.axaml") in
  info_append (u "Found " ++ str_of_nat (length xaml_files)
                 ++ u " XAML files") ;;
  for_each xaml_files check_single_xaml_file.

Definition check_resources : M unit :=
  print (0x1F5BC%N :: 0xFE0F%N :: u "  Checking resources...") ;;
  a <- get_self ;;
  (let assets_folder := joinpath (project_path a) (u "Assets") in
   if Path_exists w assets_folder then
     let asset_files := rglob w assets_folder (u "*") in
     let asset_files := filter (Path_is_file w) asset_files in
     info_append (u "Found " ++ str_of_nat (length asset_files)
                    ++ u " asset files")
   else warnings_append (u "No Assets folder found")) ;;
  (let styles_folder := joinpath (project_path a) (u "Styles") in
   if Path_exists w styles_folder then
     let style_files := glob w styles_folder (u "*.axaml") in
     info_append (u "Found " ++ str_of_nat (length style_files)
                    ++ u " style files") ;;
     let app_xaml := joinpath (project_path a) (u "App.axaml") in
     if Path_exists w app_xaml then
       app_content <- lift (read_text w app_xaml) ;;
       for_each style_files (fun style_file =>
         let style_ref := u "Styles/" ++ name style_file in
         if negb (contains style_ref app_content) then
           warnings_append (u "Style file " ++ name style_file
                              ++ u " not referenced in App.axaml")
         else ret tt)
     else ret tt
   else info_append (u "No Styles folder found")).

(** The first half of [check_app_files]: the checks on [App.axaml]. *)
Definition check_app_xaml : M unit :=
  a <- get_self ;;
  let app_xaml := joinpath (project_path a) (u "App.axaml") in
  if Path_exists w app_xaml then
    try_except
      (content <- lift (read_text w app_xaml) ;;
       (if is_empty (strip content) then
          issues_append (u "App.axaml is empty")
        else if negb (contains (u "Application") content) then
          issues_append
            (u "App.axaml doesn't contain Application root element")
        else info_append (u "App.axaml looks valid")) ;;
       if contains (u "StyleInclude") content then
         let style_includes := Re.re_findall source_pattern content in
         for_each style_includes (fun style_path =>
           let full_path := joinpath (project_path a) style_path in
           if negb (Path_exists w full_path) then
             issues_append (missing_style_msg style_path)
           else ret tt)
       else ret tt)
      is_Exception
      (fun e => issues_append (u "Failed to read App.axaml: " ++ exn_str e))
  else issues_append (u "App.axaml not found").

(** The second half: the checks on [App.axaml.cs]. *)
Definition check_app_cs : M unit :=
  a <- get_self ;;
  let app_cs := joinpath (project_path a) (u "App.axaml.cs") in
  if Path_exists w app_cs then
    try_except
      (content <- lift (read_text w app_cs) ;;
       (if negb (contains (u "InitializeComponent") content) then
          warnings_append
            (u "App.axaml.cs doesn't call InitializeComponent()")
        else ret tt) ;;
       info_append (u "App.axaml.cs exists"))
      is_Exception
      (fun e =>
         issues_append (u "Failed to read App.axaml.cs: " ++ exn_str e))
  else issues_append (u "App.axaml.cs not found").

Definition check_app_files : M unit :=
  print (0x1F680%N :: u " Checking application files...") ;;
  check_app_xaml ;;
  check_app_cs.

Definition check_build_artifacts : M unit :=
  print (0x1F528%N :: u " Checking build artifacts...") ;;
  a <- get_self ;;
  (let obj_folder := joinpath (project_path a) (u "obj") in
   if Path_exists w obj_folder then
     (let generated_files := rglob w obj_folder (u "*.g.cs") in
      if nonempty generated_files then
        info_append (u "Found " ++ str_of_nat (length generated_files)
                       ++ u " generated code files")
      else
        warnings_append
          (u "No generated code files found (XAML might not be compiling)")) ;;
     (let avalonia_cache := rglob w obj_folder (u "*avalonia*") in
      if nonempty avalonia_cache then
        info_append (u "Avalonia build cache exists")
      else ret tt)
   else
     warnings_append (u "No obj folder found (project hasn't been built)")) ;;
  (let bin_folder := joinpath (project_path a) (u "bin") in
   if Path_exists w bin_folder then
     let exe_files := rglob w bin_folder (u "*.exe") in
     if nonempty exe_files then
       info_append (u "Found " ++ str_of_nat (length exe_files)
                      ++ u " executable files")
     else ret tt
   else warnings_append (u "No bin folder found")).

(** One numbered group of the report. *)
Definition print_group (mark : str) (title : string) (l : list str)
  : M unit :=
  if nonempty l then
    print ([nl] ++ mark ++ u title ++ u " (" ++ str_of_nat (length l)
             ++ u "):") ;;
    for_each (enumerate 1 l) (fun '(i, x) =>
      print (u "   " ++ str_of_nat i ++ u ". " ++ x))
  else ret tt.

Definition print_results : M unit :=
  print ([nl] ++ times (u "=") 60) ;;
  print (0x1F4CA%N :: u " ANALYSIS RESULTS") ;;
  print (times (u "=") 60) ;;
  a <- get_self ;;
  print_group [0x274C%N] " CRITICAL ISSUES" (issues a) ;;
  print_group [0x26A0%N; 0xFE0F%N] "  WARNINGS" (warnings a) ;;
  print_group [0x2705%N] " INFO" (info a) ;;
  print ([nl] ++ 0x1F3AF%N :: u " SUMMARY:") ;;
  print (u "   Issues: " ++ str_of_nat (length (issues a))
           ++ u " | Warnings: " ++ str_of_nat (length (warnings a))
           ++ u " | Info: " ++ str_of_nat (length (info a))) ;;
  if nonempty (issues a) then
    print ([nl] ++ 0x1F527%N :: u " RECOMMENDED ACTIONS:") ;;
    print (u "   1. Fix all critical issues first") ;;
    print (u "   2. Address warnings that might affect functionality") ;;
    print (u "   3. Clean and rebuild project") ;;
    print (u "   4. Test application startup")
  else ret tt.

Definition analyze : M unit :=
  print (0x1F50D%N :: u " AVALONIA PROJECT DIAGNOSTIC ANALYSIS") ;;
  print (times (u "=") 60) ;;
  check_project_structure ;;
  check_csproj_file ;;
  check_xaml_files ;;
  check_resources ;;
  check_app_files ;;
  check_build_artifacts ;;
  print_results.

End Methods.

(* ================================================================= *)
(** ** The program *)

(** What one execution leaves behind: how [main] ended, what it wrote to
    the standard output, and the analyzer object when one was created. *)
Record Run := mkRun {
  result : outcome unit;
  output : str;
  analyzer : option Analyzer
}.

Definition prompt : str := u "Enter path to Avalonia project directory: ".

Definition path_error_msg (project_path : str) : str :=
  0x274C%N :: u " Error: Path '" ++ project_path ++ u "' does not exist".

(** [main], given [sys.argv] and the lines waiting on the standard
    input. *)
Definition main (w : World) (argv : list str) (stdin : list str) : Run :=
  let '(got, out0) :=
    match argv with
    | _ :: arg1 :: _ => (Return arg1, [])
    | _ =>
        match stdin with
        | line :: _ => (Return line, prompt)
        | [] => (Raise (EOFError (u "EOF when reading a line")), prompt)
        end
    end in
  match got with
  | Raise e => {| result := Raise e; output := out0; analyzer := None |}
  | Return project_path =>
      if negb (os_path_exists w project_path) then
        {| result := Return tt;
           output := out0 ++ path_error_msg project_path ++ [nl];
           analyzer := None |}
      else
        let '(r, st) :=
          analyze w {| self := init project_path; stdout := out0 |} in
        {| result := r; output := stdout st; analyzer := Some (self st) |}
  end.

(* ================================================================= *)
(** ** Vocabulary of the statements *)

(** The state after the issues [l] have been appended. *)
Definition add_issues (l : list str) (st : State) : State :=
  {| self := {| project_path := project_path (self st);
                issues := issues (self st) ++ l;
                warnings := warnings (self st);
                info := info (self st) |};
     stdout := stdout st |}.

(** A computation that leaves the issues recorded so far in place and at
    most appends to them. *)
Definition issues_grow {A} (m : M A) : Prop :=
  forall st, exists l,
    issues (self (snd (m st))) = issues (self st) ++ l.

(** The issues the misspelling scan reports for a file. *)
Definition typo_issues (file content : str) : list str :=
  flat_map (fun '(typo, correct) =>
              if contains typo content then
                [typo_msg file (find_line_number content typo) typo correct]
              else [])
           typos.


(** The issue of the validity test on the text of [App.axaml]. *)
Definition validity_issues (content : str) : list str :=
  if is_empty (strip content) then [u "App.axaml is empty"]
  else if negb (contains (u "Application") content) then
         [u "App.axaml doesn't contain Application root element"]
       else [].

(** The [Source] values of a text whose path under [pp] does not exist,
    in the order and with the multiplicity of the text. *)
Definition missing_styles (w : World) (pp : Path) (content : str)
  : list str :=
  filter (fun style_path => negb (Path_exists w (joinpath pp style_path)))
         (Re.re_findall source_pattern content).

(** The issues of the style-include test. *)
Definition style_issues (w : World) (pp : Path) (content : str)
  : list str :=
  if contains (u "StyleInclude") content then
    map missing_style_msg (missing_styles w pp content)
  else [].

(** The issue of the test on [App.axaml.cs]. *)
Definition app_cs_issues (w : World) (pp : Path) : list str :=
  if Path_exists w (joinpath pp (u "App.axaml.cs")) then
    match read_text w (joinpath pp (u "App.axaml.cs")) with
    | Return _ => []
    | Raise e => [u "Failed to read App.axaml.cs: " ++ exn_str e]
    end
  else [u "App.axaml.cs not found"].


(** ** Example trees *)

(** A file that is only read as text (its XML reading is never asked
    for and is set to a parse error). *)
Definition text_file (content : str) : node :=
  File (Return content) (Raise (ParseError (u "syntax error: line 1, column 0"))).

(** A project descriptor given by its parsed root element. *)
Definition xml_file (content : str) (root : ET.Element) : node :=
  File (Return content) (Return root).

(** The file system with the project directory [/proj] holding
    [entries]; the process runs in the root directory. *)
Definition project_world (entries : list (str * node)) : World :=
  {| root := Dir [(u "proj", Dir entries)]; cwd := [] |}.

Definition proj : str := u "/proj".

(** The state of a fresh analyzer on [/proj] before anything is printed. *)
Definition fresh : State := {| self := init proj; stdout := [] |}.

(** A markup file without root element that holds a misspelled token. *)
Definition rootless_world : World :=
  project_world [(u "Notes.axaml", text_file (u "ColumnDefinin"))].

(** A markup file with a misspelled attribute on its second line. *)
Definition typo_content : str :=
  u "<Grid>" ++ [nl] ++ u "  <Grid ColumnDefinin='*,*'/>" ++ [nl]
    ++ u "</Grid>".

Definition typo_world : World :=
  project_world [(u "Main.axaml", text_file typo_content)].

(** A markup file with a [StackPanel] carrying [Padding] on its second
    line. *)
Definition padding_content : str :=
  u "<UserControl>" ++ [nl] ++ u "  <StackPanel Padding='10'>" ++ [nl]
    ++ u "  </StackPanel>" ++ [nl] ++ u "</UserControl>".

Definition padding_world : World :=
  project_world [(u "Main.axaml", text_file padding_content)].

(** A descriptor whose only package reference is not an Avalonia one. *)
Definition plain_csproj : ET.Element :=
  ET.Elem (u "Project") [(u "Sdk", u "Microsoft.NET.Sdk")] None
    [ET.Elem (u "ItemGroup") [] None
       [ET.Elem (u "PackageReference")
                [(u "Include", u "Newtonsoft.Json"); (u "Version", u "13.0.1")]
                None []]].

Definition plain_csproj_world : World :=
  project_world [(u "App.csproj", xml_file (u "<Project/>") plain_csproj)].

(** The attribute text [name="value"]. *)
Definition attr (name value : string) : str :=
  u name ++ u "=" ++ [dq] ++ u value ++ [dq].



(** An [App.axaml] with one style include and an image, both missing. *)
Definition image_content : str :=
  u "<Application>" ++ [nl]
    ++ u "  <StyleInclude " ++ attr "Source" "Styles/Colors.axaml" ++ u "/>"
    ++ [nl]
    ++ u "  <Image " ++ attr "Source" "Assets/logo.png" ++ u "/>"
    ++ [nl] ++ u "</Application>".

Definition image_world : World :=
  project_world [(u "App.axaml", text_file image_content)].

(** An [App.axaml] with a missing [Source] but without the token
    [StyleInclude]. *)
Definition resource_content : str :=
  u "<Application>" ++ [nl]
    ++ u "  <ResourceInclude " ++ attr "Source" "Styles/Colors.axaml" ++ u "/>"
    ++ [nl] ++ u "</Application>".

Definition resource_world : World :=
  project_world [(u "App.axaml", text_file resource_content)].

(** The error of reading a file that is not UTF-8 (its first byte is
    0xff). *)
Definition decode_error : exn :=
  UnicodeDecodeError
    (u "'utf-8' codec can't decode byte 0xff in position 0: invalid start byte").

(** A descriptor with an Avalonia package and the [UseAvalonia] flag. *)
Definition avalonia_csproj : ET.Element :=
  ET.Elem (u "Project") [(u "Sdk", u "Microsoft.NET.Sdk")] None
    [ET.Elem (u "PropertyGroup") [] None
       [ET.Elem (u "UseAvalonia") [] (Some (u "true")) []];
     ET.Elem (u "ItemGroup") [] None
       [ET.Elem (u "PackageReference")
                [(u "Include", u "Avalonia"); (u "Version", u "11.0.7")]
                None []]].

(** A project with a [Styles] folder whose [App.axaml] is stored in
    another encoding than UTF-8. *)
Definition undecodable_world : World :=
  project_world
    [(u "App.csproj", xml_file (u "<Project/>") avalonia_csproj);
     (u "App.axaml",
      File (Raise decode_error)
           (Raise (ParseError (u "not well-formed (invalid token): line 1, column 0"))));
     (u "App.axaml.cs", text_file (u "InitializeComponent();"));
     (u "Styles", Dir [])].

(** A project whose descriptor cannot be opened. *)
Definition denied : exn :=
  OSError (u "[Errno 13] Permission denied: '/proj/App.csproj'").

Definition unreadable_csproj_world : World :=
  project_world
    [(u "App.csproj", File (Raise denied) (Raise denied));
     (u "App.axaml", text_file (u "<Application/>"));
     (u "App.axaml.cs", text_file (u "InitializeComponent();"))].

Definition argv_proj : list str := [u "avalonia_project_analyzer.py"; proj].

(** ** Vocabulary of the further statements *)

(** The state after findings of the three kinds and output have been
    appended. *)
Definition add_findings (i wn n : list str) (o : str) (st : State) : State :=
  {| self := {| project_path := project_path (self st);
                issues := issues (self st) ++ i;
                warnings := warnings (self st) ++ wn;
                info := info (self st) ++ n |};
     stdout := stdout st ++ o |}.

(** [st'] is [st] with findings and output appended. *)
Definition extends (st st' : State) : Prop :=
  exists i wn n o, st' = add_findings i wn n o st.

(** The same, with notes and output untouched. *)
Definition extends_issues_warnings (st st' : State) : Prop :=
  exists i wn, st' = add_findings i wn [] [] st.

(** The same, with the issues untouched. *)
Definition extends_no_issue (st st' : State) : Prop :=
  exists wn n o, st' = add_findings [] wn n o st.

(** A computation whose final state is always related to its initial
    state by [R], whether it returns or raises. *)
Definition preserved (R : State -> State -> Prop) {A} (m : M A) : Prop :=
  forall st, R st (snd (m st)).

(** A computation that returns from every state. *)
Definition never_raises {A} (m : M A) : Prop :=
  forall st, exists a, fst (m st) = Return a.

(** The issues of the unsupported-attribute scan of a file. *)
Definition unsupported_issues (file content : str) : list str :=
  flat_map
    (fun prop =>
       if is_Some (Re.re_search (stackpanel_pattern prop) content) then
         [if eqb prop (u "Padding")
          then padding_msg file
                 (find_line_number content (stackpanel_pattern prop))
          else unsupported_msg file
                 (find_line_number content (stackpanel_pattern prop)) prop]
       else [])
    unsupported_props.

(** The issues of a markup file, from its name and the outcome of
    reading it. *)
Definition xaml_issues (file : str) (r : outcome str) : list str :=
  match r with
  | Raise e => [file ++ u ": Failed to read file - " ++ exn_str e]
  | Return content =>
      if is_empty (strip content) then [file ++ u ": File is empty"]
      else if negb (startswith (u "<") (strip content)) then
             [file ++ u ": No root element"]
           else typo_issues file content ++ unsupported_issues file content
  end.

(** [f] lies below the directory [pp]: the folders [dirs], then the
    entry [nm]. *)
Definition below (pp f : Path) (dirs : list str) (nm : str) : Prop :=
  absolute f = absolute pp /\ parts f = parts pp ++ dirs ++ [nm].



(** How the descriptor check ends: only an error of [ET.parse] that is
    not a parse error leaves it. *)
Definition csproj_outcome (w : World) (pp : Path) : outcome unit :=
  match glob w pp (u "*.csproj") with
  | [] => Return tt
  | csproj_path :: _ =>
      match ET_parse w csproj_path with
      | Return _ => Return tt
      | Raise e => if is_ParseError e then Return tt else Raise e
      end
  end.




(** A project whose descriptor is not well-formed XML. *)
Definition malformed_world : World :=
  project_world
    [(u "App.csproj",
      File (Return (u "<Project>"))
           (Raise (ParseError (u "no element found: line 1, column 9"))))].







(** The issues of the test on [App.axaml], whatever its state. *)
Definition app_xaml_issues (w : World) (pp : Path) : list str :=
  if Path_exists w (joinpath pp (u "App.axaml")) then
    match read_text w (joinpath pp (u "App.axaml")) with
    | Return content => validity_issues content ++ style_issues w pp content
    | Raise e => [u "Failed to read App.axaml: " ++ exn_str e]
    end
  else [u "App.axaml not found"].

(** The text of one numbered group of the report. *)
Definition group_text (mark : str) (title : string) (l : list str) : str :=
  if nonempty l then
    (([nl] ++ mark ++ u title ++ u " (" ++ str_of_nat (length l) ++ u "):")
       ++ [nl])
      ++ flat_map (fun '(i, x) =>
                     (u "   " ++ str_of_nat i ++ u ". " ++ x) ++ [nl])
                  (enumerate 1 l)
  else [].

(** The text of the report for the three sequences of findings. *)
Definition report_text (i wn n : list str) : str :=
  (([nl] ++ times (u "=") 60) ++ [nl])
    ++ ((0x1F4CA%N :: u " ANALYSIS RESULTS") ++ [nl])
    ++ (times (u "=") 60 ++ [nl])
    ++ group_text [0x274C%N] " CRITICAL ISSUES" i
    ++ group_text [0x26A0%N; 0xFE0F%N] "  WARNINGS" wn
    ++ group_text [0x2705%N] " INFO" n
    ++ (([nl] ++ 0x1F3AF%N :: u " SUMMARY:") ++ [nl])
    ++ ((u "   Issues: " ++ str_of_nat (length i)
           ++ u " | Warnings: " ++ str_of_nat (length wn)
           ++ u " | Info: " ++ str_of_nat (length n)) ++ [nl])
    ++ (if nonempty i then
          (([nl] ++ 0x1F527%N :: u " RECOMMENDED ACTIONS:") ++ [nl])
            ++ (u "   1. Fix all critical issues first" ++ [nl])
            ++ (u "   2. Address warnings that might affect functionality"
                  ++ [nl])
            ++ (u "   3. Clean and rebuild project" ++ [nl])
            ++ (u "   4. Test application startup" ++ [nl])
        else []).


Definition gt : char := 62%N.

(** The pattern of the unsupported-attribute search, as read from its
    text: the literal [<StackPanel], a run without [>], the attribute
    name and [=]. *)
Definition stackpanel_re (prop : str) : Re.pattern :=
  map (fun c => Re.Lit [c]) (u "<StackPanel")
      ++ Re.StarNot gt :: map (fun c => Re.Lit [c]) (prop ++ u "=").

(* ================================================================= *)
(** * The analyzer when a status call fails

    [Path.exists], [Path.is_dir] and [Path.is_file] call [os.stat], and
    pathlib turns into [False] only the errors of the not-found kind
    (ENOENT, ENOTDIR, EBADF, ELOOP) and a [ValueError]; any other
    [OSError] of [os.stat] (a name that is too long, a directory that may
    not be searched, an input/output error) is raised to the caller.  A
    [System] is a tree together with the error, if any, that [os.stat]
    raises for such a reason on a path.  The methods that ask for the
    status of a path are written again over a system, with every status
    call of the source in its place; the listing of a directory that
    [os.stat] reports as a directory succeeds, as before. *)

Module Strict.

Record System := mkSystem {
  tree : World;
  stat_error : Path -> option exn
}.

(** [except PermissionError]: the class of an [OSError] follows from its
    [errno], which opens its text; EPERM (1) and EACCES (13) make a
    [PermissionError]. *)
Definition is_PermissionError (e : exn) : bool :=
  match e with
  | OSError m =>
      startswith (u "[Errno 13] ") m || startswith (u "[Errno 1] ") m
  | _ => false
  end.

Section Methods.

Variable s : System.

(** [p.exists()] *)
Definition Path_exists (p : Path) : outcome bool :=
  match stat_error s p with
  | Some e => Raise e
  | None => Return (Path_exists (tree s) p)
  end.

(** [p.is_dir()] *)
Definition Path_is_dir (p : Path) : outcome bool :=
  match stat_error s p with
  | Some e => Raise e
  | None => Return (Path_is_dir (tree s) p)
  end.

(** [p.is_file()] *)
Definition Path_is_file (p : Path) : outcome bool :=
  match stat_error s p with
  | Some e => Raise e
  | None => Return (Path_is_file (tree s) p)
  end.

(** [os.path.exists(t)], which answers [False] on every [OSError]. *)
Definition os_path_exists (t : str) : bool :=
  match stat_error s (Path_of_str t) with
  | Some _ => false
  | None => os_path_exists (tree s) t
  end.

(** [list(p.glob(pat))]: the selector first asks whether [p] is a
    directory; for a pattern without wild card it then asks whether the
    entry exists, and takes a [PermissionError] of that test for a
    missing entry. *)
Definition glob (p : Path) (pat : str) : outcome (list Path) :=
  match Path_is_dir p with
  | Raise e => Raise e
  | Return false => Return []
  | Return true =>
      if is_wildcard_pattern pat then Return (glob (tree s) p pat)
      else
        match Path_exists (child p pat) with
        | Return true => Return [child p pat]
        | Return false => Return []
        | Raise e => if is_PermissionError e then Return [] else Raise e
        end
  end.

(** [list(p.rglob(pat))] for a pattern with a wild card. *)
Definition rglob (p : Path) (pat : str) : outcome (list Path) :=
  match Path_is_dir p with
  | Raise e => Raise e
  | Return false => Return []
  | Return true => Return (rglob (tree s) p pat)
  end.

(** [[f for f in l if f.is_file()]] *)
Fixpoint keep_files (l : list Path) : outcome (list Path) :=
  match l with
  | [] => Return []
  | f :: l' =>
      match Path_is_file f with
      | Raise e => Raise e
      | Return b =>
          match keep_files l' with
          | Raise e => Raise e
          | Return kept => Return (if b then f :: kept else kept)
          end
      end
  end.

Definition check_project_structure : M unit :=
  print (0x1F4C1%N :: u " Checking project structure...") ;;
  a <- get_self ;;
  for_each required_files (fun pattern =>
    matching_files <- lift (glob (project_path a) pattern) ;;
    match matching_files with
    | [] => issues_append (missing_file_msg pattern)
    | first :: _ => info_append (u "Found: " ++ name first)
    end) ;;
  (let views_folder := joinpath (project_path a) (u "Views") in
   views_exists <- lift (Path_exists views_folder) ;;
   if negb views_exists then
     warnings_append (u "Views folder doesn't exist")
   else
     view_files <- lift (glob views_folder (u "*.axaml")) ;;
     info_append (u "Found " ++ str_of_nat (length view_files)
                    ++ u " view files")) ;;
  (let controls_folder := joinpath (project_path a) (u "Controls") in
   controls_exists <- lift (Path_exists controls_folder) ;;
   if controls_exists then
     control_files <- lift (glob controls_folder (u "*.axaml")) ;;
     info_append (u "Found " ++ str_of_nat (length control_files)
                    ++ u " control files")
   else ret tt).

Definition check_csproj_file : M unit :=
  print (0x1F527%N :: u " Checking project file...") ;;
  a <- get_self ;;
  csproj_files <- lift (glob (project_path a) (u "*.csproj")) ;;
  match csproj_files with
  | [] => issues_append (u "No .csproj file found")
  | csproj_path :: _ =>
      try_except
        (root <- lift (ET_parse (tree s) csproj_path) ;;
         let avalonia_packages := avalonia_packages_of root in
         (if nonempty avalonia_packages then
            info_append (u "Avalonia packages:") ;;
            for_each avalonia_packages (fun pkg =>
              info_append (u "  - " ++ pkg))
          else issues_append no_packages_msg) ;;
         match ET.find_descendant root (u "UseAvalonia") with
         | None =>
             warnings_append
               (u "UseAvalonia property not found in project file")
         | Some use_avalonia =>
             match ET.text use_avalonia with
             | Some t =>
                 if eqb t (u "true") then ret tt
                 else issues_append
                        (u "UseAvalonia property is not set to true")
             | None =>
                 issues_append (u "UseAvalonia property is not set to true")
             end
         end)
        is_ParseError
        (fun e =>
           issues_append (u "Failed to parse .csproj file: " ++ exn_str e))
  end.

Definition check_xaml_files : M unit :=
  print (0x1F4C4%N :: u " Checking XAML files...") ;;
  a <- get_self ;;
  xaml_files <- lift (rglob (project_path a) (u "*.axaml")) ;;
  info_append (u "Found " ++ str_of_nat (length xaml_files)
                 ++ u " XAML files") ;;
  for_each xaml_files (check_single_xaml_file (tree s)).

Definition check_resources : M unit :=
  print (0x1F5BC%N :: 0xFE0F%N :: u "  Checking resources...") ;;
  a <- get_self ;;
  (let assets_folder := joinpath (project_path a) (u "Assets") in
   assets_exists <- lift (Path_exists assets_folder) ;;
   if assets_exists then
     asset_files <- lift (rglob assets_folder (u "*")) ;;
     asset_files <- lift (keep_files asset_files) ;;
     info_append (u "Found " ++ str_of_nat (length asset_files)
                    ++ u " asset files")
   else warnings_append (u "No Assets folder found")) ;;
  (let styles_folder := joinpath (project_path a) (u "Styles") in
   styles_exists <- lift (Path_exists styles_folder) ;;
   if styles_exists then
     style_files <- lift (glob styles_folder (u "*.axaml")) ;;
     info_append (u "Found " ++ str_of_nat (length style_files)
                    ++ u " style files") ;;
     let app_xaml := joinpath (project_path a) (u "App.axaml") in
     app_xaml_exists <- lift (Path_exists app_xaml) ;;
     if app_xaml_exists then
       app_content <- lift (read_text (tree s) app_xaml) ;;
       for_each style_files (fun style_file =>
         let style_ref := u "Styles/" ++ name style_file in
         if negb (contains style_ref app_content) then
           warnings_append (u "Style file " ++ name style_file
                              ++ u " not referenced in App.axaml")
         else ret tt)
     else ret tt
   else info_append (u "No Styles folder found")).

Definition check_app_files : M unit :=
  print (0x1F680%N :: u " Checking application files...") ;;
  a <- get_self ;;
  let app_xaml := joinpath (project_path a) (u "App.axaml") in
  let app_cs := joinpath (project_path a) (u "App.axaml.cs") in
  (app_xaml_exists <- lift (Path_exists app_xaml) ;;
   if app_xaml_exists then
     try_except
       (content <- lift (read_text (tree s) app_xaml) ;;
        (if is_empty (strip content) then
           issues_append (u "App.axaml is empty")
         else if negb (contains (u "Application") content) then
           issues_append
             (u "App.axaml doesn't contain Application root element")
         else info_append (u "App.axaml looks valid")) ;;
        if contains (u "StyleInclude") content then
          let style_includes := Re.re_findall source_pattern content in
          for_each style_includes (fun style_path =>
            let full_path := joinpath (project_path a) style_path in
            full_path_exists <- lift (Path_exists full_path) ;;
            if negb full_path_exists then
              issues_append (missing_style_msg style_path)
            else ret tt)
        else ret tt)
       is_Exception
       (fun e => issues_append (u "Failed to read App.axaml: " ++ exn_str e))
   else issues_append (u "App.axaml not found")) ;;
  (app_cs_exists <- lift (Path_exists app_cs) ;;
   if app_cs_exists then
     try_except
       (content <- lift (read_text (tree s) app_cs) ;;
        (if negb (contains (u "InitializeComponent") content) then
           warnings_append
             (u "App.axaml.cs doesn't call InitializeComponent()")
         else ret tt) ;;
        info_append (u "App.axaml.cs exists"))
       is_Exception
       (fun e =>
          issues_append (u "Failed to read App.axaml.cs: " ++ exn_str e))
   else issues_append (u "App.axaml.cs not found")).

Definition check_build_artifacts : M unit :=
  print (0x1F528%N :: u " Checking build artifacts...") ;;
  a <- get_self ;;
  (let obj_folder := joinpath (project_path a) (u "obj") in
   obj_exists <- lift (Path_exists obj_folder) ;;
   if obj_exists then
     (generated_files <- lift (rglob obj_folder (u "*.g.cs")) ;;
      if nonempty generated_files then
        info_append (u "Found " ++ str_of_nat (length generated_files)
                       ++ u " generated code files")
      else
        warnings_append
          (u "No generated code files found (XAML might not be compiling)")) ;;
     (avalonia_cache <- lift (rglob obj_folder (u "*avalonia*")) ;;
      if nonempty avalonia_cache then
        info_append (u "Avalonia build cache exists")
      else ret tt)
   else
     warnings_append (u "No obj folder found (project hasn't been built)")) ;;
  (let bin_folder := joinpath (project_path a) (u "bin") in
   bin_exists <- lift (Path_exists bin_folder) ;;
   if bin_exists then
     exe_files <- lift (rglob bin_folder (u "*.exe")) ;;
     if nonempty exe_files then
       info_append (u "Found " ++ str_of_nat (length exe_files)
                      ++ u " executable files")
     else ret tt
   else warnings_append (u "No bin folder found")).

Definition analyze : M unit :=
  print (0x1F50D%N :: u " AVALONIA PROJECT DIAGNOSTIC ANALYSIS") ;;
  print (times (u "=") 60) ;;
  check_project_structure ;;
  check_csproj_file ;;
  check_xaml_files ;;
  check_resources ;;
  check_app_files ;;
  check_build_artifacts ;;
  print_results.

(** [main], given [sys.argv] and the lines waiting on the standard
    input. *)
Definition main (argv : list str) (stdin : list str) : Run :=
  let '(got, out0) :=
    match argv with
    | _ :: arg1 :: _ => (Return arg1, [])
    | _ =>
        match stdin with
        | line :: _ => (Return line, prompt)
        | [] => (Raise (EOFError (u "EOF when reading a line")), prompt)
        end
    end in
  match got with
  | Raise e => {| result := Raise e; output := out0; analyzer := None |}
  | Return project_path =>
      if negb (os_path_exists project_path) then
        {| result := Return tt;
           output := out0 ++ path_error_msg project_path ++ [nl];
           analyzer := None |}
      else
        let '(r, st) :=
          analyze {| self := init project_path; stdout := out0 |} in
        {| result := r; output := stdout st; analyzer := Some (self st) |}
  end.

(** *** Vocabulary *)

(** The existence test of the style path [v] says that it is missing. *)
Definition missing (pp : Path) (v : str) : bool :=
  match Path_exists (joinpath pp v) with
  | Return false => true
  | _ => false
  end.

(** The values of [l] that the style loop examines: those in front of
    the first one whose existence test raises. *)
Fixpoint checked (pp : Path) (l : list str) : list str :=
  match l with
  | [] => []
  | v :: l' =>
      match Path_exists (joinpath pp v) with
      | Raise _ => []
      | Return _ => v :: checked pp l'
      end
  end.

(** The error of the first existence test of [l] that raises. *)
Fixpoint first_error (pp : Path) (l : list str) : option exn :=
  match l with
  | [] => None
  | v :: l' =>
      match Path_exists (joinpath pp v) with
      | Raise e => Some e
      | Return _ => first_error pp l'
      end
  end.

Definition failed_read_msg (e : exn) : str :=
  u "Failed to read App.axaml: " ++ exn_str e.

(** The issues of the style loop over the values [l]: one for each
    examined value that is missing, then the one of the handler when a
    test raised. *)
Definition scan_styles (pp : Path) (l : list str) : list str :=
  map missing_style_msg (filter (missing pp) (checked pp l))
  ++ match first_error pp l with
     | Some e => [failed_read_msg e]
     | None => []
     end.

(** The issues of the part on [App.axaml]. *)
Definition app_xaml_issues (pp : Path) : list str :=
  match Path_exists (joinpath pp (u "App.axaml")) with
  | Raise _ => []
  | Return false => [u "App.axaml not found"]
  | Return true =>
      match read_text (tree s) (joinpath pp (u "App.axaml")) with
      | Raise e => [failed_read_msg e]
      | Return content =>
          validity_issues content
          ++ (if contains (u "StyleInclude") content
              then scan_styles pp (Re.re_findall source_pattern content)
              else [])
      end
  end.

(** The issues of the part on [App.axaml.cs]. *)
Definition app_cs_issues (pp : Path) : list str :=
  match Path_exists (joinpath pp (u "App.axaml.cs")) with
  | Raise _ => []
  | Return false => [u "App.axaml.cs not found"]
  | Return true =>
      match read_text (tree s) (joinpath pp (u "App.axaml.cs")) with
      | Raise e => [u "Failed to read App.axaml.cs: " ++ exn_str e]
      | Return _ => []
      end
  end.

(** The note of the validity test on the text of [App.axaml]. *)
Definition validity_notes (content : str) : list str :=
  if is_empty (strip content) then []
  else if negb (contains (u "Application") content) then []
       else [u "App.axaml looks valid"].

Definition app_xaml_notes (pp : Path) : list str :=
  match Path_exists (joinpath pp (u "App.axaml")) with
  | Return true =>
      match read_text (tree s) (joinpath pp (u "App.axaml")) with
      | Return content => validity_notes content
      | Raise _ => []
      end
  | _ => []
  end.

(** The warning and the note of the part on [App.axaml.cs]. *)
Definition app_cs_warnings (pp : Path) : list str :=
  match Path_exists (joinpath pp (u "App.axaml.cs")) with
  | Return true =>
      match read_text (tree s) (joinpath pp (u "App.axaml.cs")) with
      | Return content =>
          if negb (contains (u "InitializeComponent") content) then
            [u "App.axaml.cs doesn't call InitializeComponent()"]
          else []
      | Raise _ => []
      end
  | _ => []
  end.

Definition app_cs_notes (pp : Path) : list str :=
  match Path_exists (joinpath pp (u "App.axaml.cs")) with
  | Return true =>
      match read_text (tree s) (joinpath pp (u "App.axaml.cs")) with
      | Return _ => [u "App.axaml.cs exists"]
      | Raise _ => []
      end
  | _ => []
  end.

(** How the application file check ends: the two existence tests in
    front of the handlers are the only calls that can leave it. *)
Definition app_files_outcome (pp : Path) : outcome unit :=
  match Path_exists (joinpath pp (u "App.axaml")) with
  | Raise e => Raise e
  | Return _ =>
      match Path_exists (joinpath pp (u "App.axaml.cs")) with
      | Raise e => Raise e
      | Return _ => Return tt
      end
  end.

(** Its issues: the second part is reached only when the first
    existence test returns. *)
Definition app_files_issues (pp : Path) : list str :=
  app_xaml_issues pp
  ++ match Path_exists (joinpath pp (u "App.axaml")) with
     | Raise _ => []
     | Return _ => app_cs_issues pp
     end.

Definition app_files_warnings (pp : Path) : list str :=
  match Path_exists (joinpath pp (u "App.axaml")) with
  | Raise _ => []
  | Return _ => app_cs_warnings pp
  end.

Definition app_files_notes (pp : Path) : list str :=
  app_xaml_notes pp
  ++ match Path_exists (joinpath pp (u "App.axaml")) with
     | Raise _ => []
     | Return _ => app_cs_notes pp
     end.

(** No status call on a path of [l] fails. *)
Definition stat_returns (l : list Path) : Prop :=
  forall p, In p l -> stat_error s p = None.

End Methods.

(** A tree on which no status call fails. *)
Definition fault_free (w : World) : System :=
  {| tree := w; stat_error := fun _ => None |}.

(** Linux refuses a path with a component of more than 255 bytes; every
    character takes at least one byte. *)
Definition name_too_long (p : Path) : option exn :=
  if existsb (fun c => 255 <? length c) (parts p) then
    Some (OSError (errno_msg "[Errno 36] File name too long" p))
  else None.

Definition linux (w : World) : System :=
  {| tree := w; stat_error := name_too_long |}.

End Strict.

(** ** Vocabulary of the statements on a system *)

(** The text of a [Source] attribute with the value [v]. *)
Definition source_attribute (v : str) : str :=
  u "Source=" ++ [dq] ++ v ++ [dq].

(** What the group of the pattern can capture: a text that is not empty
    and holds no double quote. *)
Definition is_value (v : str) : Prop := v <> [] /\ ~ In dq v.

(** The [Source] values of a text, read from left to right: the value of
    the attribute that starts first, then the values of the text behind
    its closing quote; none when no attribute with a value occurs. *)
Inductive Sources : str -> list str -> Prop :=
| Sources_none (content : str) :
    (forall pre v post,
        is_value v -> content <> pre ++ source_attribute v ++ post) ->
    Sources content []
| Sources_next (pre v post : str) (vs : list str) :
    is_value v ->
    (forall pre' v' post',
        is_value v' ->
        pre ++ source_attribute v ++ post
        = pre' ++ source_attribute v' ++ post' ->
        length pre <= length pre') ->
    Sources post vs ->
    Sources (pre ++ source_attribute v ++ post) (v :: vs).

(** A computation that, from every state with the project path [pp],
    ends the same way and appends the same findings and output. *)
Definition uniform {A} (pp : Path) (m : M A) : Prop :=
  exists r i wn n o,
    forall st, project_path (self st) = pp ->
               m st = (r, add_findings i wn n o st).

(** A computation that does the same and, when it returns, ends by
    printing the report of the findings then held. *)
Definition reported (pp : Path) (m : M unit) : Prop :=
  exists r i wn n o,
    forall st, project_path (self st) = pp ->
      m st
      = (r,
         add_findings i wn n
           (o ++ match r with
                 | Return _ =>
                     report_text (issues (self st) ++ i)
                                 (warnings (self st) ++ wn)
                                 (info (self st) ++ n)
                 | Raise _ => []
                 end)
           st).

(** An [App.axaml] whose first style include has a name of 256
    characters, too long for the file system, and whose second one is
    missing. *)
Definition long_name : str := times (u "a") 256 ++ u ".axaml".

Definition long_content : str :=
  u "<Application>" ++ [nl]
    ++ u "  <StyleInclude " ++ source_attribute long_name ++ u "/>" ++ [nl]
    ++ u "  <StyleInclude " ++ attr "Source" "Styles/Missing.axaml" ++ u "/>"
    ++ [nl] ++ u "</Application>".

Definition long_world : World :=
  project_world [(u "App.axaml", text_file long_content)].

(* ================================================================= *)
(** * Properties *)

Unset Implicit Arguments.

(** ** Strings and lines *)

Lemma eqb_eq (a b : str) : eqb a b = true <-> a = b.
Proof.
  revert b; induction a as [|x a IH]; intros [|y b]; simpl;
    try (split; [discriminate | discriminate]); try tauto.
  rewrite andb_true_iff, N.eqb_eq, IH.
  split; [intros [-> ->]; reflexivity | intros H; inversion H; auto].
Qed.

Lemma eqb_refl (a : str) : eqb a a = true.
Proof. apply eqb_eq; reflexivity. Qed.

Lemma eqb_neq (a b : str) : eqb a b = false <-> a <> b.
Proof.
  rewrite <- eqb_eq. destruct (eqb a b); split; congruence.
Qed.

Lemma split_not_nil (c : char) (s : str) : split c s <> [].
Proof.
  destruct s as [|x s]; simpl; [discriminate|].
  destruct (N.eqb x c); [discriminate|].
  destruct (split c s); discriminate.
Qed.

(** A text without line feed that starts [s] also starts its first line. *)
Lemma startswith_first_line (t s : str) :
  ~ In nl t -> startswith t s = true ->
  startswith t (hd [] (split nl s)) = true.
Proof.
  revert s; induction t as [|x t IH]; intros s Hnl Hs; [reflexivity|].
  destruct s as [|y s]; [discriminate|].
  simpl in Hs. apply andb_true_iff in Hs as [Hxy Ht].
  apply N.eqb_eq in Hxy; subst y.
  assert (Hx : N.eqb x nl = false).
  { apply N.eqb_neq; intros ->; apply Hnl; left; reflexivity. }
  simpl split. rewrite Hx.
  assert (IH' := IH s (fun H => Hnl (or_intror H)) Ht).
  destruct (split nl s) as [|l ls] eqn:E.
  - exfalso; exact (split_not_nil _ _ E).
  - simpl in *. rewrite N.eqb_refl. exact IH'.
Qed.

Lemma startswith_contains (t s : str) :
  startswith t s = true -> contains t s = true.
Proof. intros H; destruct s; simpl; rewrite H; reflexivity. Qed.

(** A text without line feed found in [s] is found in one of its lines. *)
Lemma contains_in_some_line (t s : str) :
  ~ In nl t -> contains t s = true ->
  existsb (contains t) (split nl s) = true.
Proof.
  intros Hnl; induction s as [|c s IH]; intros H.
  - simpl in *. rewrite H; reflexivity.
  - simpl in H. apply orb_true_iff in H as [H|H].
    + apply (startswith_first_line _ _ Hnl) in H.
      destruct (split nl (c :: s)) as [|l ls] eqn:E;
        [exfalso; exact (split_not_nil _ _ E)|].
      simpl in *. rewrite (startswith_contains _ _ H). reflexivity.
    + specialize (IH H). simpl split.
      destruct (N.eqb c nl).
      * simpl. rewrite IH. apply orb_true_r.
      * destruct (split nl s) as [|l ls] eqn:E; [discriminate|].
        simpl in IH. apply orb_true_iff in IH as [IH|IH].
        -- change (existsb (contains t) ((c :: l) :: ls))
             with (contains t (c :: l) || existsb (contains t) ls).
           change (contains t (c :: l))
             with (startswith t (c :: l) || contains t l).
           rewrite IH, orb_true_r. reflexivity.
        -- change (existsb (contains t) ((c :: l) :: ls))
             with (contains t (c :: l) || existsb (contains t) ls).
           rewrite IH. apply orb_true_r.
Qed.

(** What [find_line_from] returns: 0 when no line contains the term,
    otherwise the number of the first line that does. *)
Lemma find_line_from_spec (term : str) (lines : list str) (i : nat) :
  (find_line_from i lines term = 0 /\
   forall l, In l lines -> contains term l = false)
  \/
  (exists k line,
      find_line_from i lines term = i + k /\
      nth_error lines k = Some line /\
      contains term line = true /\
      forall j l, j < k -> nth_error lines j = Some l ->
                  contains term l = false).
Proof.
  revert i; induction lines as [|line lines IH]; intros i.
  - left; split; [reflexivity | intros l []].
  - simpl. destruct (contains term line) eqn:E.
    + right; exists 0, line. repeat split; [lia | assumption |].
      intros j l Hj; lia.
    + destruct (IH (S i)) as [[H0 Hall]|(k & l' & Hk & Hn & Hc & Hlt)].
      * left; split; [assumption|].
        intros l [<-|Hl]; [assumption | auto].
      * right; exists (S k), l'. repeat split;
          [lia | assumption | assumption |].
        intros j l Hj Hjl. destruct j as [|j]; simpl in Hjl.
        -- inversion Hjl; subst; assumption.
        -- apply (Hlt j l); [lia | assumption].
Qed.

Lemma find_line_from_found (term : str) (lines : list str) (i : nat) :
  existsb (contains term) lines = true ->
  i <= find_line_from i lines term /\
  (0 < i -> 0 < find_line_from i lines term).
Proof.
  revert i; induction lines as [|line lines IH]; intros i H;
    [discriminate|].
  simpl in *. destruct (contains term line); [lia|].
  simpl in H. destruct (IH (S i) H) as [H1 H2]. lia.
Qed.

(** ** The monad *)

Lemma add_issues_nil (st : State) : add_issues [] st = st.
Proof.
  destruct st as [[pp i wn inf] out]; unfold add_issues; simpl.
  rewrite app_nil_r; reflexivity.
Qed.

Lemma add_issues_app (l1 l2 : list str) (st : State) :
  add_issues l2 (add_issues l1 st) = add_issues (l1 ++ l2) st.
Proof. unfold add_issues; simpl. rewrite app_assoc; reflexivity. Qed.

Lemma ret_add_issues (st : State) : ret tt st = (Return tt, add_issues [] st).
Proof. rewrite add_issues_nil; reflexivity. Qed.

(** A loop whose body only appends issues appends them all, in order. *)
Lemma for_each_add_issues {A} (g : A -> list str) (body : A -> M unit) :
  (forall x st, body x st = (Return tt, add_issues (g x) st)) ->
  forall l st, for_each l body st = (Return tt, add_issues (flat_map g l) st).
Proof.
  intros Hbody; induction l as [|x l IH]; intros st.
  - apply ret_add_issues.
  - simpl. unfold bind. rewrite Hbody, IH, add_issues_app. reflexivity.
Qed.

Lemma grow_ret {A} (a : A) : issues_grow (ret a).
Proof. intros st; exists []; simpl; rewrite app_nil_r; reflexivity. Qed.

Lemma grow_lift {A} (o : outcome A) : issues_grow (lift o).
Proof. intros st; exists []; simpl; rewrite app_nil_r; reflexivity. Qed.

Lemma grow_get_self : issues_grow get_self.
Proof. intros st; exists []; simpl; rewrite app_nil_r; reflexivity. Qed.

Lemma grow_print (s : str) : issues_grow (print s).
Proof. intros st; exists []; simpl; rewrite app_nil_r; reflexivity. Qed.

Lemma grow_issues_append (s : str) : issues_grow (issues_append s).
Proof. intros st; exists [s]; reflexivity. Qed.

Lemma grow_warnings_append (s : str) : issues_grow (warnings_append s).
Proof. intros st; exists []; simpl; rewrite app_nil_r; reflexivity. Qed.

Lemma grow_info_append (s : str) : issues_grow (info_append s).
Proof. intros st; exists []; simpl; rewrite app_nil_r; reflexivity. Qed.

Lemma grow_bind {A B} (m : M A) (k : A -> M B) :
  issues_grow m -> (forall a, issues_grow (k a)) -> issues_grow (bind m k).
Proof.
  intros Hm Hk st. unfold bind.
  destruct (Hm st) as [l1 H1]. destruct (m st) as [[a|e] st1]; simpl in *.
  - destruct (Hk a st1) as [l2 H2]. exists (l1 ++ l2).
    rewrite H2, H1, app_assoc; reflexivity.
  - exists l1; assumption.
Qed.

Lemma grow_try_except {A} (m : M A) (c : exn -> bool) (h : exn -> M A) :
  issues_grow m -> (forall e, issues_grow (h e)) ->
  issues_grow (try_except m c h).
Proof.
  intros Hm Hh st. unfold try_except.
  destruct (Hm st) as [l1 H1]. destruct (m st) as [[a|e] st1]; simpl in *.
  - exists l1; assumption.
  - destruct (c e); [|exists l1; assumption].
    destruct (Hh e st1) as [l2 H2]. exists (l1 ++ l2).
    rewrite H2, H1, app_assoc; reflexivity.
Qed.

Lemma grow_for_each {A} (l : list A) (body : A -> M unit) :
  (forall x, issues_grow (body x)) -> issues_grow (for_each l body).
Proof.
  intros Hb; induction l as [|x l IH]; simpl.
  - apply grow_ret.
  - apply grow_bind; auto.
Qed.

Lemma grow_if {A} (b : bool) (m1 m2 : M A) :
  issues_grow m1 -> issues_grow m2 -> issues_grow (if b then m1 else m2).
Proof. destruct b; auto. Qed.

Create HintDb grow.
#[local] Hint Resolve grow_ret grow_lift grow_get_self grow_print
  grow_issues_append grow_warnings_append grow_info_append
  grow_bind grow_try_except grow_for_each grow_if : grow.

(** ** The markup check *)

(** C10. A markup file whose text is empty or only white space, or whose
    stripped text does not begin with [<], gets exactly one issue and
    nothing else: the misspelling, unsupported-attribute and [x:Class]
    scans are not run, warnings, notes and output are untouched. *)
Theorem check_single_xaml_file_blank_or_rootless
        (w : World) (xaml_file : Path) (content : str) (st : State) :
  read_text w xaml_file = Return content ->
  is_empty (strip content) = true
  \/ startswith (u "<") (strip content) = false ->
  exists msg,
    check_single_xaml_file w xaml_file st = (Return tt, add_issues [msg] st)
    /\ (msg = name xaml_file ++ u ": File is empty"
        \/ msg = name xaml_file ++ u ": No root element").
Proof.
  intros Hread Hblank.
  unfold check_single_xaml_file, try_except, bind, lift. rewrite Hread.
  destruct (is_empty (strip content)) eqn:Hempty.
  - eexists; split; [reflexivity | left; reflexivity].
  - destruct Hblank as [Hb|Hb]; [discriminate|]. rewrite Hb. simpl negb.
    cbv iota. eexists; split; [reflexivity | right; reflexivity].
Qed.

Lemma check_single_xaml_file_blank_or_rootless_witness :
  exists msg,
    check_single_xaml_file rootless_world (Path_of_str (u "/proj/Notes.axaml"))
                           fresh
    = (Return tt, add_issues [msg] fresh)
    /\ (msg = name (Path_of_str (u "/proj/Notes.axaml")) ++ u ": File is empty"
        \/ msg = name (Path_of_str (u "/proj/Notes.axaml"))
                 ++ u ": No root element").
Proof.
  apply (@check_single_xaml_file_blank_or_rootless
           rootless_world (Path_of_str (u "/proj/Notes.axaml"))
           (u "ColumnDefinin") fresh).
  - vm_compute; reflexivity.
  - right; vm_compute; reflexivity.
Defined.

Lemma contains_app (t a b : str) : contains t (a ++ t ++ b) = true.
Proof.
  induction a as [|x a IH]; simpl.
  - apply startswith_contains.
    induction t as [|y t IHt]; simpl; [reflexivity|].
    rewrite N.eqb_refl; exact IHt.
  - change ((x :: a) ++ t ++ b) with (x :: (a ++ t ++ b)).
    rewrite IH. apply orb_true_r.
Qed.

(** The misspelling scan appends exactly [typo_issues]. *)
Lemma check_typos_spec (file content : str) (st : State) :
  check_typos file content st
  = (Return tt, add_issues (typo_issues file content) st).
Proof.
  unfold check_typos, typo_issues.
  apply for_each_add_issues. intros [typo correct] st'.
  destruct (contains typo content).
  - reflexivity.
  - apply ret_add_issues.
Qed.

Lemma grow_check_unsupported_props (file content : str) :
  issues_grow (check_unsupported_props file content).
Proof.
  unfold check_unsupported_props. apply grow_for_each. intros prop.
  cbv zeta. auto with grow.
Qed.

Lemma grow_get_expected_class_name (xaml_file : Path) :
  issues_grow (get_expected_class_name xaml_file).
Proof.
  unfold get_expected_class_name. auto 10 with grow.
Qed.

Lemma grow_check_xclass (xaml_file : Path) (content : str) :
  issues_grow (check_xclass xaml_file content).
Proof.
  unfold check_xclass.
  destruct (Re.re_search xclass_pattern content) as [[g r]|];
    [|apply grow_ret].
  apply grow_bind; [apply grow_get_expected_class_name|].
  intros e. auto with grow.
Qed.

Lemma typos_have_no_line_feed (typo correct : str) :
  In (typo, correct) typos -> ~ In nl typo.
Proof.
  intros [H|[H|[H|[]]]]; inversion H; subst; clear H; vm_compute;
    intros H; repeat (destruct H as [H|H]; [discriminate|]); exact H.
Qed.

(** C3 (amended). For a markup file whose stripped text begins with [<]
    and whose text contains one of the misspelled tokens, the markup check
    records the issue [file:line: Found 'token' (should be 'correction')],
    which includes the corrected spelling and the line number; that number
    is at least 1 and is the number of the first line containing the
    token.  The line-number lookup itself returns, for any text and term,
    the 1-based number of the first line containing the term, or 0 when
    no line contains it. *)
Theorem check_single_xaml_file_reports_typo
        (w : World) (xaml_file : Path) (content : str) (st : State)
        (typo correct : str) :
  read_text w xaml_file = Return content ->
  startswith (u "<") (strip content) = true ->
  In (typo, correct) typos ->
  contains typo content = true ->
  let n := find_line_number content typo in
  let msg := typo_msg (name xaml_file) n typo correct in
  In msg (issues (self (snd (check_single_xaml_file w xaml_file st))))
  /\ contains correct msg = true
  /\ contains (str_of_nat n) msg = true
  /\ 1 <= n
  /\ (exists line,
         nth_error (split nl content) (n - 1) = Some line
         /\ contains typo line = true
         /\ forall j l, j < n - 1 -> nth_error (split nl content) j = Some l ->
                        contains typo l = false)
  /\ (forall text term,
         (find_line_number text term = 0
          /\ forall l, In l (split nl text) -> contains term l = false)
         \/ (exists k line,
                find_line_number text term = 1 + k
                /\ nth_error (split nl text) k = Some line
                /\ contains term line = true
                /\ forall j l, j < k -> nth_error (split nl text) j = Some l ->
                               contains term l = false)).
Proof.
  intros Hread Hroot Hin Hcont n msg.
  assert (Hfound : 1 <= n).
  { unfold n, find_line_number.
    apply (proj1 (@find_line_from_found typo (split nl content) 1
                    (@contains_in_some_line typo content
                       (typos_have_no_line_feed _ _ Hin) Hcont))). }
  refine (conj _ (conj _ (conj _ (conj Hfound (conj _ _))))).
  - (* the issue is recorded *)
    unfold check_single_xaml_file, try_except.
    unfold bind at 1. unfold lift. rewrite Hread.
    destruct (strip content) as [|c sc] eqn:Hstrip; [discriminate|].
    rewrite Hroot. cbn [is_empty negb].
    unfold bind at 1. rewrite check_typos_spec.
    set (rest := bind (check_unsupported_props (name xaml_file) content)
                      (fun _ => check_xclass xaml_file content)).
    assert (Hgrow : issues_grow rest).
    { unfold rest. apply grow_bind;
        [apply grow_check_unsupported_props
        | intros _; apply grow_check_xclass]. }
    destruct (Hgrow (add_issues (typo_issues (name xaml_file) content) st))
      as [l Hl].
    assert (Hmsg : In msg (typo_issues (name xaml_file) content)).
    { unfold typo_issues. apply in_flat_map.
      exists (typo, correct). split; [assumption|].
      rewrite Hcont. left; reflexivity. }
    destruct (rest (add_issues (typo_issues (name xaml_file) content) st))
      as [[a|e] st2]; simpl in Hl |- *.
    + rewrite Hl. apply in_or_app; left. apply in_or_app; right; assumption.
    + rewrite Hl. apply in_or_app; left.
      apply in_or_app; left. apply in_or_app; right; assumption.
  - unfold msg, typo_msg.
    repeat rewrite app_assoc.
    rewrite <- (app_assoc _ correct). apply contains_app.
  - unfold msg, typo_msg.
    rewrite (app_assoc (name xaml_file)). apply contains_app.
  - destruct (find_line_from_spec typo (split nl content) 1)
      as [[H0 _]|(k & line & Hk & Hn & Hc & Hlt)].
    + unfold n, find_line_number in Hfound. lia.
    + exists line. unfold n, find_line_number. rewrite Hk.
      replace (1 + k - 1) with k by lia. auto.
  - intros text term. unfold find_line_number.
    apply find_line_from_spec.
Qed.

Lemma check_single_xaml_file_reports_typo_witness :
  In (typo_msg (u "Main.axaml") 2 (u "ColumnDefinin") (u "ColumnDefinitions"))
     (issues (self (snd (check_single_xaml_file
                           typo_world (Path_of_str (u "/proj/Main.axaml"))
                           fresh)))).
Proof.
  exact (proj1 (@check_single_xaml_file_reports_typo
                  typo_world (Path_of_str (u "/proj/Main.axaml"))
                  typo_content fresh
                  (u "ColumnDefinin") (u "ColumnDefinitions")
                  eq_refl eq_refl (or_introl eq_refl) eq_refl)).
Defined.

(** C3 as stated fails without the root-element guard: a non-empty file
    that holds a misspelled token but does not begin with [<] gets the
    single issue [No root element], and no issue mentions the corrected
    spelling. *)
Lemma typo_in_rootless_file_unreported :
  let f := Path_of_str (u "/proj/Notes.axaml") in
  read_text rootless_world f = Return (u "ColumnDefinin")
  /\ u "ColumnDefinin" <> []
  /\ In (u "ColumnDefinin", u "ColumnDefinitions") typos
  /\ contains (u "ColumnDefinin") (u "ColumnDefinin") = true
  /\ issues (self (snd (check_single_xaml_file rootless_world f fresh)))
     = [u "Notes.axaml: No root element"]
  /\ forall msg,
      In msg (issues (self (snd (check_single_xaml_file
                                   rootless_world f fresh)))) ->
      contains (u "ColumnDefinitions") msg = false.
Proof.
  cbv zeta.
  assert (E : issues (self (snd (check_single_xaml_file
                                   rootless_world
                                   (Path_of_str (u "/proj/Notes.axaml"))
                                   fresh)))
              = [u "Notes.axaml: No root element"])
    by (vm_compute; reflexivity).
  split; [vm_compute; reflexivity|].
  split; [vm_compute; discriminate|].
  split; [left; reflexivity|].
  split; [vm_compute; reflexivity|].
  split; [exact E|].
  intros msg Hmsg. rewrite E in Hmsg.
  destruct Hmsg as [<-|[]]. vm_compute; reflexivity.
Qed.

(** *** The line reported for an unsupported attribute *)

Lemma first_line_prefix (s t : str) :
  startswith t (hd [] (split nl s)) = true -> startswith t s = true.
Proof.
  revert t; induction s as [|c s IH]; intros t H.
  - exact H.
  - simpl split in H. destruct t as [|x t]; [reflexivity|].
    destruct (N.eqb c nl); [discriminate|].
    destruct (split nl s) as [|l ls] eqn:E;
      [exfalso; exact (split_not_nil _ _ E)|].
    simpl in H |- *. apply andb_true_iff in H as [Hx Ht].
    rewrite Hx. apply IH. exact Ht.
Qed.

Lemma contains_nil_r (t : str) : contains t [] = true -> t = [].
Proof. destruct t; [reflexivity | discriminate]. Qed.

(** A term found in a line of [s] is found in [s]. *)
Lemma line_contains (s t l : str) :
  In l (split nl s) -> contains t l = true -> contains t s = true.
Proof.
  revert l; induction s as [|c s IH]; intros l Hl Ht.
  - destruct Hl as [<-|[]]. exact Ht.
  - simpl split in Hl.
    change (contains t (c :: s))
      with (startswith t (c :: s) || contains t s).
    destruct (N.eqb c nl) eqn:Hc.
    + destruct Hl as [<-|Hl].
      * apply contains_nil_r in Ht; subst t. reflexivity.
      * rewrite (IH l Hl Ht). apply orb_true_r.
    + destruct (split nl s) as [|l0 ls] eqn:E;
        [exfalso; exact (split_not_nil _ _ E)|].
      destruct Hl as [<-|Hl].
      * change (contains t (c :: l0))
          with (startswith t (c :: l0) || contains t l0) in Ht.
        apply orb_true_iff in Ht as [Ht|Ht].
        -- rewrite (@first_line_prefix (c :: s) t); [reflexivity|].
           simpl split. rewrite Hc, E. exact Ht.
        -- rewrite (IH l0 (or_introl eq_refl) Ht). apply orb_true_r.
      * rewrite (IH l (or_intror Hl) Ht). apply orb_true_r.
Qed.

(** The lookup answers 0 for a term that does not occur in the text. *)
Lemma find_line_number_absent (content term : str) :
  contains term content = false -> find_line_number content term = 0.
Proof.
  intros Habs. unfold find_line_number.
  destruct (find_line_from_spec term (split nl content) 1)
    as [[H0 _]|(k & line & _ & Hn & Hc & _)]; [exact H0|].
  apply nth_error_In in Hn.
  rewrite (line_contains _ _ _ Hn Hc) in Habs. discriminate.
Qed.

(** C2 (the code at the failing input). The markup file has a
    [StackPanel] with a [Padding] attribute on line 2; the check records
    one issue for it, and the line number in that issue is 0: the lookup
    is handed the text of the regular expression, which occurs in no
    line. *)
Theorem stackpanel_padding_reported_on_line_zero :
  let f := Path_of_str (u "/proj/Main.axaml") in
  nth_error (split nl padding_content) 1
  = Some (u "  <StackPanel Padding='10'>")
  /\ is_Some (Re.re_search (stackpanel_pattern (u "Padding")) padding_content)
     = true
  /\ find_line_number padding_content (stackpanel_pattern (u "Padding")) = 0
  /\ issues (self (snd (check_single_xaml_file padding_world f fresh)))
     = [u "Main.axaml:0: StackPanel doesn't support Padding (use Border instead)"].
Proof.
  cbv zeta. repeat split; vm_compute; reflexivity.
Qed.

(** ** The structure check *)

(** The loop over the required patterns when none of them matches. *)
Lemma required_loop_all_missing (w : World) (pp : Path) (l : list str)
      (st : State) :
  (forall pattern, In pattern l -> glob w pp pattern = []) ->
  for_each l (fun pattern =>
                match glob w pp pattern with
                | [] => issues_append (missing_file_msg pattern)
                | first :: _ => info_append (u "Found: " ++ name first)
                end) st
  = (Return tt, add_issues (map missing_file_msg l) st).
Proof.
  revert st; induction l as [|p l IH]; intros st Hnone.
  - apply ret_add_issues.
  - simpl for_each. unfold bind.
    rewrite (Hnone p (or_introl eq_refl)).
    change (issues_append (missing_file_msg p) st)
      with (Return tt, add_issues [missing_file_msg p] st).
    cbv beta iota.
    rewrite IH by (intros q Hq; apply Hnone; right; exact Hq).
    rewrite add_issues_app. reflexivity.
Qed.

(** C4. When none of the required patterns matches a file of the project
    root, the structure check returns normally and appends exactly one
    issue per pattern, in the order of the pattern list, and no other
    issue. *)
Theorem check_project_structure_all_missing (w : World) (st : State) :
  (forall pattern, In pattern required_files ->
                   glob w (project_path (self st)) pattern = []) ->
  fst (check_project_structure w st) = Return tt
  /\ issues (self (snd (check_project_structure w st)))
     = issues (self st) ++ map missing_file_msg required_files
  /\ map missing_file_msg required_files
     = [u "Missing required file: *.csproj";
        u "Missing required file: App.axaml";
        u "Missing required file: App.axaml.cs"].
Proof.
  intros Hnone.
  assert (H : exists st',
             check_project_structure w st = (Return tt, st')
             /\ issues (self st')
                = issues (self st) ++ map missing_file_msg required_files).
  { unfold check_project_structure.
    unfold bind at 1. unfold print at 1.
    unfold bind at 1. unfold get_self at 1.
    unfold bind at 1. cbn [self stdout].
    rewrite required_loop_all_missing by exact Hnone.
    unfold bind at 1.
    destruct (Path_exists w (joinpath (project_path (self st)) (u "Views")));
      destruct (Path_exists w
                  (joinpath (project_path (self st)) (u "Controls")));
      (eexists; split; [reflexivity | reflexivity]). }
  destruct H as (st' & E & Hissues). rewrite E.
  split; [reflexivity | split; [exact Hissues | vm_compute; reflexivity]].
Qed.

Lemma check_project_structure_all_missing_witness :
  fst (check_project_structure (project_world []) fresh) = Return tt
  /\ issues (self (snd (check_project_structure (project_world []) fresh)))
     = issues (self fresh) ++ map missing_file_msg required_files
  /\ map missing_file_msg required_files
     = [u "Missing required file: *.csproj";
        u "Missing required file: App.axaml";
        u "Missing required file: App.axaml.cs"].
Proof.
  apply (check_project_structure_all_missing (project_world []) fresh).
  intros pattern [<-|[<-|[<-|[]]]]; vm_compute; reflexivity.
Defined.

(** ** The descriptor check *)

(** Induction on an element with the hypothesis for all its children. *)
Lemma Element_nested_ind (P : ET.Element -> Prop) :
  (forall t a x cs, Forall P cs -> P (ET.Elem t a x cs)) ->
  forall e, P e.
Proof.
  intros H. fix IH 1. intros [t a x cs]. apply H.
  induction cs as [|c cs IHcs];
    [constructor | constructor; [apply IH | exact IHcs]].
Qed.

Lemma iter_eq (t : str) (a : list (str * str)) (x : option str)
      (cs : list ET.Element) :
  ET.iter (ET.Elem t a x cs) = ET.Elem t a x cs :: flat_map ET.iter cs.
Proof.
  reflexivity.
Qed.

Lemma iter_self (e : ET.Element) : In e (ET.iter e).
Proof. destruct e; rewrite iter_eq; left; reflexivity. Qed.

(** A descendant of a descendant is a descendant. *)
Lemma iter_trans (e : ET.Element) :
  forall x y, In x (ET.iter e) -> In y (ET.iter x) -> In y (ET.iter e).
Proof.
  induction e as [t a tx cs IH] using Element_nested_ind.
  intros x y Hx Hy. rewrite iter_eq in Hx |- *.
  destruct Hx as [<-|Hx]; [rewrite iter_eq in Hy; exact Hy|].
  right. apply in_flat_map in Hx as (c & Hc & Hxc).
  apply in_flat_map. exists c. split; [exact Hc|].
  rewrite Forall_forall in IH. exact (IH c Hc x y Hxc Hy).
Qed.

Lemma child_in_iter (e c : ET.Element) :
  In c (ET.children e) -> In c (ET.iter e).
Proof.
  destruct e as [t a x cs]; simpl ET.children; intros Hc.
  rewrite iter_eq. right. apply in_flat_map. exists c.
  split; [exact Hc | apply iter_self].
Qed.

Lemma flat_map_nil {A B} (f : A -> list B) (l : list A) :
  (forall x, In x l -> f x = []) -> flat_map f l = [].
Proof.
  induction l as [|x l IH]; intros H; simpl; [reflexivity|].
  rewrite (H x (or_introl eq_refl)), IH; [reflexivity|].
  intros y Hy; apply H; right; exact Hy.
Qed.

(** No package reference of the tree names Avalonia: nothing is
    collected. *)
Lemma avalonia_packages_of_none (root : ET.Element) :
  (forall e, In e (ET.iter root) ->
             ET.has_tag (u "PackageReference") e = true ->
             contains (u "Avalonia") (ET.get e (u "Include") (u "")) = false) ->
  avalonia_packages_of root = [].
Proof.
  intros Hnone. unfold avalonia_packages_of.
  apply flat_map_nil. intros item_group Hig.
  apply flat_map_nil. intros package_ref Hpr.
  unfold ET.findall_descendants in Hig. apply filter_In in Hig as [Hig _].
  unfold ET.findall in Hpr. apply filter_In in Hpr as [Hpr Htag].
  assert (Hin : In package_ref (ET.iter root)).
  { apply (iter_trans root item_group).
    - destruct (ET.iter root); [destruct Hig | right; exact Hig].
    - apply child_in_iter; exact Hpr. }
  rewrite (Hnone package_ref Hin Htag). reflexivity.
Qed.

(** C5. When the first descriptor found parses and no [PackageReference]
    of it has [Avalonia] in its [Include] attribute, the descriptor
    check returns normally (raises nothing) and appends the issue
    [No Avalonia packages found in project file]; the only issue that can
    follow it is the one about the [UseAvalonia] property. *)
Theorem check_csproj_file_no_packages
        (w : World) (st : State) (csproj_path : Path) (others : list Path)
        (root : ET.Element) :
  glob w (project_path (self st)) (u "*.csproj") = csproj_path :: others ->
  ET_parse w csproj_path = Return root ->
  (forall e, In e (ET.iter root) ->
             ET.has_tag (u "PackageReference") e = true ->
             contains (u "Avalonia") (ET.get e (u "Include") (u "")) = false) ->
  fst (check_csproj_file w st) = Return tt
  /\ exists more,
      issues (self (snd (check_csproj_file w st)))
      = issues (self st) ++ no_packages_msg :: more
      /\ (more = [] \/ more = [u "UseAvalonia property is not set to true"]).
Proof.
  intros Hglob Hparse Hnone.
  assert (H : exists st' more,
             check_csproj_file w st = (Return tt, st')
             /\ issues (self st') = issues (self st) ++ no_packages_msg :: more
             /\ (more = []
                 \/ more = [u "UseAvalonia property is not set to true"])).
  { unfold check_csproj_file.
    unfold bind at 1. unfold print at 1.
    unfold bind at 1. unfold get_self at 1. cbn [self stdout].
    rewrite Hglob. unfold try_except.
    unfold bind at 1. unfold lift at 1. rewrite Hparse.
    rewrite (avalonia_packages_of_none root Hnone). cbn [nonempty].
    unfold bind at 1.
    change (issues_append no_packages_msg ?s)
      with (Return tt, add_issues [no_packages_msg] s).
    cbv beta iota.
    destruct (ET.find_descendant root (u "UseAvalonia")) as [use|].
    - destruct (ET.text use) as [t|].
      + destruct (eqb t (u "true")).
        * eexists; exists []; split; [reflexivity|].
          split; [reflexivity | left; reflexivity].
        * eexists; eexists; split; [reflexivity|].
          split; [simpl; rewrite <- app_assoc; reflexivity
                 | right; reflexivity].
      + eexists; eexists; split; [reflexivity|].
        split; [simpl; rewrite <- app_assoc; reflexivity | right; reflexivity].
    - eexists; exists []; split; [reflexivity|].
      split; [reflexivity | left; reflexivity]. }
  destruct H as (st' & more & E & Hissues & Hmore). rewrite E.
  split; [reflexivity | exists more; split; assumption].
Qed.

Lemma check_csproj_file_no_packages_witness :
  fst (check_csproj_file plain_csproj_world fresh) = Return tt
  /\ exists more,
      issues (self (snd (check_csproj_file plain_csproj_world fresh)))
      = issues (self fresh) ++ no_packages_msg :: more
      /\ (more = [] \/ more = [u "UseAvalonia property is not set to true"]).
Proof.
  apply (check_csproj_file_no_packages
           plain_csproj_world fresh
           (child (Path_of_str proj) (u "App.csproj")) [] plain_csproj).
  - vm_compute; reflexivity.
  - vm_compute; reflexivity.
  - intros e Hin Htag.
    destruct Hin as [<-|[<-|[<-|[]]]]; vm_compute in Htag |- *;
      solve [reflexivity | discriminate].
Defined.

(** ** The application file check *)






(** *** What the [Source] search extracts *)









(** With the token present, the [Source] of an image is checked like
    that of a style include. *)
Lemma image_source_is_checked :
  issues (self (snd (check_app_files image_world fresh)))
  = [u "App.axaml references missing style: Styles/Colors.axaml";
     u "App.axaml references missing style: Assets/logo.png";
     u "App.axaml.cs not found"].
Proof. vm_compute; reflexivity. Qed.

(** Without the token, a missing [Source] goes unreported. *)
Lemma source_without_token_is_not_checked :
  contains (u "StyleInclude") resource_content = false
  /\ Re.re_findall source_pattern resource_content = [u "Styles/Colors.axaml"]
  /\ Path_exists resource_world
                 (joinpath (Path_of_str proj) (u "Styles/Colors.axaml")) = false
  /\ issues (self (snd (check_app_files resource_world fresh)))
     = [u "App.axaml.cs not found"].
Proof. repeat split; vm_compute; reflexivity. Qed.

(** *** Counting the issues that name a path *)












(** ** The program *)

(** C7. When the path given on the command line, or typed at the prompt,
    does not exist, [main] returns normally, creates no analyzer (so no
    check runs and no finding of any category exists), and prints exactly
    one line, the error message, after the prompt if there was one. *)
Theorem main_missing_path
        (w : World) (argv stdin : list str) (project_path shown : str) :
  (exists prog rest, argv = prog :: project_path :: rest /\ shown = [])
  \/ (length argv <= 1
      /\ (exists more, stdin = project_path :: more)
      /\ shown = prompt) ->
  os_path_exists w project_path = false ->
  main w argv stdin
  = {| result := Return tt;
       output := shown ++ path_error_msg project_path ++ [nl];
       analyzer := None |}.
Proof.
  intros Hgiven Hmissing. unfold main.
  destruct Hgiven as [(prog & rest & -> & ->)
                     |(Hlen & (more & ->) & ->)].
  - rewrite Hmissing. reflexivity.
  - destruct argv as [|a0 [|a1 argv]]; simpl in Hlen; try lia;
      rewrite Hmissing; reflexivity.
Qed.

Lemma main_missing_path_witness :
  main (project_world []) [u "avalonia_project_analyzer.py"; u "/nowhere"] []
  = {| result := Return tt;
       output := [] ++ path_error_msg (u "/nowhere") ++ [nl];
       analyzer := None |}.
Proof.
  apply (main_missing_path (project_world [])
           [u "avalonia_project_analyzer.py"; u "/nowhere"] []
           (u "/nowhere") []).
  - left. exists (u "avalonia_project_analyzer.py"), []. split; reflexivity.
  - vm_compute; reflexivity.
Defined.


(** C1 (the code at the failing input). The project has a [Styles]
    folder and an [App.axaml] that is not UTF-8.  The markup check turns
    the read error into an issue, but the resource check reads the same
    file outside any handler: the error leaves [analyze] and [main], the
    application-file and build checks never run and no report is
    printed. *)
Theorem undecodable_app_axaml_aborts_audit :
  let run := main undecodable_world argv_proj [] in
  result run = Raise decode_error
  /\ option_map issues (analyzer run)
     = Some [u "App.axaml: Failed to read file - 'utf-8' codec can't decode byte 0xff in position 0: invalid start byte"]
  /\ contains (u "Checking resources") (output run) = true
  /\ contains (u "Checking application files") (output run) = false
  /\ contains (u "Checking build artifacts") (output run) = false
  /\ contains (u "ANALYSIS RESULTS") (output run) = false.
Proof. cbv zeta. repeat split; vm_compute; reflexivity. Qed.

(** The descriptor check has the same gap: it handles a parse error only,
    so a descriptor that cannot be opened ends the audit at the second
    check. *)
Lemma unreadable_csproj_aborts_audit :
  let run := main unreadable_csproj_world argv_proj [] in
  result run = Raise denied
  /\ option_map issues (analyzer run) = Some []
  /\ contains (u "Checking XAML files") (output run) = false
  /\ contains (u "ANALYSIS RESULTS") (output run) = false.
Proof. cbv zeta. repeat split; vm_compute; reflexivity. Qed.

(** A malformed descriptor, by contrast, becomes an issue and the audit
    goes on to its report. *)
Lemma malformed_csproj_is_reported :
  let w := project_world
             [(u "App.csproj",
               File (Return (u "<Project>"))
                    (Raise (ParseError (u "no element found: line 1, column 9"))))] in
  let run := main w argv_proj [] in
  result run = Return tt
  /\ option_map (fun a => hd [] (issues a)) (analyzer run)
     = Some (u "Missing required file: App.axaml")
  /\ option_map (fun a => existsb (eqb (u "Failed to parse .csproj file: no element found: line 1, column 9")) (issues a))
                (analyzer run) = Some true
  /\ contains (u "ANALYSIS RESULTS") (output run) = true.
Proof. cbv zeta. repeat split; vm_compute; reflexivity. Qed.

(** The program never calls [analyze] twice on one object; doing so would
    keep the findings of the first call, as the sequences are only ever
    appended to. *)
Lemma analyze_again_on_same_object_accumulates :
  let once := snd (analyze (project_world []) fresh) in
  let again := snd (analyze (project_world []) once) in
  length (issues (self once)) = 6
  /\ length (issues (self again)) = 12.
Proof. cbv zeta. split; vm_compute; reflexivity. Qed.

(** ** The two unguarded reads, in general *)

(** Whenever the [Styles] folder and [App.axaml] exist, an error of
    reading [App.axaml] leaves the resource check as it is. *)
Lemma check_resources_propagates_read_error
      (w : World) (st : State) (e : exn) :
  Path_exists w (joinpath (project_path (self st)) (u "Styles")) = true ->
  Path_exists w (joinpath (project_path (self st)) (u "App.axaml")) = true ->
  read_text w (joinpath (project_path (self st)) (u "App.axaml")) = Raise e ->
  fst (check_resources w st) = Raise e.
Proof.
  intros Hstyles Happ Hread. unfold check_resources.
  unfold bind at 1. unfold print at 1.
  unfold bind at 1. unfold get_self at 1. cbn [self stdout].
  unfold bind at 1.
  destruct (Path_exists w (joinpath (project_path (self st)) (u "Assets")));
    cbn [info_append warnings_append self project_path];
    rewrite Hstyles; unfold bind at 1;
    cbn [info_append self project_path];
    rewrite Happ; unfold bind at 1; unfold lift at 1;
    rewrite Hread; reflexivity.
Qed.

(** An error of [ET.parse] other than a parse error leaves the descriptor
    check as it is. *)
Lemma check_csproj_file_propagates_other_errors
      (w : World) (st : State) (csproj_path : Path) (others : list Path)
      (e : exn) :
  glob w (project_path (self st)) (u "*.csproj") = csproj_path :: others ->
  ET_parse w csproj_path = Raise e ->
  is_ParseError e = false ->
  fst (check_csproj_file w st) = Raise e.
Proof.
  intros Hglob Hparse Hother. unfold check_csproj_file.
  unfold bind at 1. unfold print at 1.
  unfold bind at 1. unfold get_self at 1. cbn [self stdout].
  rewrite Hglob. unfold try_except.
  unfold bind at 1. unfold lift at 1. rewrite Hparse, Hother. reflexivity.
Qed.

(** ** The unsupported-attribute scan, in general *)

(** The issues of the scan, with the line the lookup returns for the
    pattern text. *)
Lemma check_unsupported_props_spec (file content : str) (st : State) :
  check_unsupported_props file content st
  = (Return tt,
     add_issues
       (flat_map
          (fun prop =>
             if is_Some (Re.re_search (stackpanel_pattern prop) content) then
               [if eqb prop (u "Padding")
                then padding_msg file
                       (find_line_number content (stackpanel_pattern prop))
                else unsupported_msg file
                       (find_line_number content (stackpanel_pattern prop))
                       prop]
             else [])
          unsupported_props)
       st).
Proof.
  unfold check_unsupported_props.
  apply (for_each_add_issues
           (fun prop =>
              if is_Some (Re.re_search (stackpanel_pattern prop) content) then
                [if eqb prop (u "Padding")
                 then padding_msg file
                        (find_line_number content (stackpanel_pattern prop))
                 else unsupported_msg file
                        (find_line_number content (stackpanel_pattern prop))
                        prop]
              else [])).
  intros prop st'. cbv zeta.
  destruct (is_Some (Re.re_search (stackpanel_pattern prop) content)).
  - destruct (eqb prop (u "Padding")); reflexivity.
  - apply ret_add_issues.
Qed.

Lemma flat_map_ext_on {A B} (f g : A -> list B) (l : list A) :
  (forall x, In x l -> f x = g x) -> flat_map f l = flat_map g l.
Proof.
  induction l as [|x l IH]; intros H; simpl; [reflexivity|].
  rewrite (H x (or_introl eq_refl)), IH; [reflexivity|].
  intros y Hy; apply H; right; exact Hy.
Qed.

(** In a text that nowhere holds the pattern text itself, every issue of
    the scan carries line 0. *)
Lemma check_unsupported_props_line_zero (file content : str) (st : State) :
  (forall prop, In prop unsupported_props ->
                contains (stackpanel_pattern prop) content = false) ->
  check_unsupported_props file content st
  = (Return tt,
     add_issues
       (flat_map
          (fun prop =>
             if is_Some (Re.re_search (stackpanel_pattern prop) content) then
               [if eqb prop (u "Padding") then padding_msg file 0
                else unsupported_msg file 0 prop]
             else [])
          unsupported_props)
       st).
Proof.
  intros Habs. rewrite check_unsupported_props_spec. do 2 f_equal.
  apply flat_map_ext_on. intros prop Hprop.
  rewrite (find_line_number_absent _ _ (Habs prop Hprop)). reflexivity.
Qed.

(* ================================================================= *)
(** * Further properties *)

(** ** Frames: what a method may change *)

Lemma add_findings_nil (st : State) : add_findings [] [] [] [] st = st.
Proof.
  destruct st as [[pp i wn n] o]. unfold add_findings. simpl.
  rewrite !app_nil_r. reflexivity.
Qed.

Lemma add_findings_app (i1 w1 n1 : list str) (o1 : str)
      (i2 w2 n2 : list str) (o2 : str) (st : State) :
  add_findings i2 w2 n2 o2 (add_findings i1 w1 n1 o1 st)
  = add_findings (i1 ++ i2) (w1 ++ w2) (n1 ++ n2) (o1 ++ o2) st.
Proof. unfold add_findings. simpl. rewrite !app_assoc. reflexivity. Qed.

Lemma extends_refl (st : State) : extends st st.
Proof. exists [], [], [], []. symmetry; apply add_findings_nil. Qed.

Lemma extends_trans (a b c : State) : extends a b -> extends b c -> extends a c.
Proof.
  intros (i1 & w1 & n1 & o1 & ->) (i2 & w2 & n2 & o2 & ->).
  rewrite add_findings_app. do 4 eexists; reflexivity.
Qed.

Lemma extends_iw_refl (st : State) : extends_issues_warnings st st.
Proof. exists [], []. symmetry; apply add_findings_nil. Qed.

Lemma extends_iw_trans (a b c : State) :
  extends_issues_warnings a b -> extends_issues_warnings b c ->
  extends_issues_warnings a c.
Proof.
  intros (i1 & w1 & ->) (i2 & w2 & ->).
  rewrite add_findings_app. do 2 eexists; reflexivity.
Qed.



Section Preserved.

Variable R : State -> State -> Prop.
Hypothesis R_refl : forall st, R st st.
Hypothesis R_trans : forall a b c, R a b -> R b c -> R a c.

Lemma preserved_ret {A} (a : A) : preserved R (ret a).
Proof. intros st; apply R_refl. Qed.

Lemma preserved_lift {A} (o : outcome A) : preserved R (lift o).
Proof. intros st; apply R_refl. Qed.

Lemma preserved_get_self : preserved R get_self.
Proof. intros st; apply R_refl. Qed.

Lemma preserved_bind {A B} (m : M A) (k : A -> M B) :
  preserved R m -> (forall a, preserved R (k a)) -> preserved R (bind m k).
Proof.
  intros Hm Hk st. unfold bind. specialize (Hm st).
  destruct (m st) as [[a|e] st1]; simpl in *; [|exact Hm].
  exact (R_trans _ _ _ Hm (Hk a st1)).
Qed.

Lemma preserved_try_except {A} (m : M A) (c : exn -> bool)
      (h : exn -> M A) :
  preserved R m -> (forall e, preserved R (h e)) ->
  preserved R (try_except m c h).
Proof.
  intros Hm Hh st. unfold try_except. specialize (Hm st).
  destruct (m st) as [[a|e] st1]; simpl in *; [exact Hm|].
  destruct (c e); [|exact Hm].
  exact (R_trans _ _ _ Hm (Hh e st1)).
Qed.

Lemma preserved_for_each {A} (l : list A) (body : A -> M unit) :
  (forall x, preserved R (body x)) -> preserved R (for_each l body).
Proof.
  intros Hb; induction l as [|x l IH]; simpl.
  - apply preserved_ret.
  - apply preserved_bind; [apply Hb | intros _; exact IH].
Qed.

End Preserved.

(** The primitives under the three frames. *)
Lemma ext_print (s : str) : preserved extends (print s).
Proof.
  intros st. exists [], [], [], (s ++ [nl]).
  unfold add_findings, print. simpl. rewrite !app_nil_r.
  destruct st as [[pp i wn n] o]; reflexivity.
Qed.

Lemma ext_issues_append (s : str) : preserved extends (issues_append s).
Proof.
  intros st. exists [s], [], [], [].
  unfold add_findings, issues_append. simpl. rewrite !app_nil_r. reflexivity.
Qed.

Lemma ext_warnings_append (s : str) : preserved extends (warnings_append s).
Proof.
  intros st. exists [], [s], [], [].
  unfold add_findings, warnings_append. simpl. rewrite !app_nil_r.
  reflexivity.
Qed.

Lemma ext_info_append (s : str) : preserved extends (info_append s).
Proof.
  intros st. exists [], [], [s], [].
  unfold add_findings, info_append. simpl. rewrite !app_nil_r. reflexivity.
Qed.

Lemma iw_issues_append (s : str) :
  preserved extends_issues_warnings (issues_append s).
Proof.
  intros st. exists [s], [].
  unfold add_findings, issues_append. simpl. rewrite !app_nil_r. reflexivity.
Qed.

Lemma iw_warnings_append (s : str) :
  preserved extends_issues_warnings (warnings_append s).
Proof.
  intros st. exists [], [s].
  unfold add_findings, warnings_append. simpl. rewrite !app_nil_r.
  reflexivity.
Qed.

Lemma ni_print (s : str) : preserved extends_no_issue (print s).
Proof.
  intros st. exists [], [], (s ++ [nl]).
  unfold add_findings, print. simpl. rewrite !app_nil_r.
  destruct st as [[pp i wn n] o]; reflexivity.
Qed.

Lemma ni_warnings_append (s : str) :
  preserved extends_no_issue (warnings_append s).
Proof.
  intros st. exists [s], [], [].
  unfold add_findings, warnings_append. simpl. rewrite !app_nil_r.
  reflexivity.
Qed.

Lemma ni_info_append (s : str) : preserved extends_no_issue (info_append s).
Proof.
  intros st. exists [], [s], [].
  unfold add_findings, info_append. simpl. rewrite !app_nil_r. reflexivity.
Qed.

(** ** Methods that cannot raise *)

Lemma nr_ret {A} (a : A) : never_raises (ret a).
Proof. intros st; exists a; reflexivity. Qed.

Lemma nr_get_self : never_raises get_self.
Proof. intros st; eexists; reflexivity. Qed.

Lemma nr_print (s : str) : never_raises (print s).
Proof. intros st; eexists; reflexivity. Qed.

Lemma nr_issues_append (s : str) : never_raises (issues_append s).
Proof. intros st; eexists; reflexivity. Qed.

Lemma nr_warnings_append (s : str) : never_raises (warnings_append s).
Proof. intros st; eexists; reflexivity. Qed.

Lemma nr_info_append (s : str) : never_raises (info_append s).
Proof. intros st; eexists; reflexivity. Qed.

Lemma nr_bind {A B} (m : M A) (k : A -> M B) :
  never_raises m -> (forall a, never_raises (k a)) -> never_raises (bind m k).
Proof.
  intros Hm Hk st. unfold bind. destruct (Hm st) as [a Ha].
  destruct (m st) as [[a'|e] st1]; simpl in Ha; [|discriminate].
  apply Hk.
Qed.

Lemma nr_for_each {A} (l : list A) (body : A -> M unit) :
  (forall x, never_raises (body x)) -> never_raises (for_each l body).
Proof.
  intros Hb; induction l as [|x l IH]; simpl.
  - apply nr_ret.
  - apply nr_bind; [apply Hb | intros _; exact IH].
Qed.

(** A handler for every exception that cannot raise itself makes the
    whole statement safe, whatever the body does. *)
Lemma nr_try_except_all {A} (m : M A) (h : exn -> M A) :
  (forall e, never_raises (h e)) -> never_raises (try_except m is_Exception h).
Proof.
  intros Hh st. unfold try_except.
  destruct (m st) as [[a|e] st1]; simpl.
  - exists a; reflexivity.
  - apply Hh.
Qed.

Create HintDb frames.
#[local] Hint Resolve ext_print ext_issues_append ext_warnings_append
  ext_info_append iw_issues_append iw_warnings_append
  ni_print ni_warnings_append ni_info_append : frames.

(** Walk through a method body, leaving the frame of each primitive. *)
Ltac frame refl trans :=
  repeat first
    [ apply (preserved_ret _ refl)
    | apply (preserved_lift _ refl)
    | apply (preserved_get_self _ refl)
    | apply (preserved_bind _ trans); [|intros ?]
    | apply (preserved_try_except _ trans); [|intros ?]
    | apply (preserved_for_each _ refl trans); intros ?
    | progress cbv zeta
    | match goal with
      | |- preserved _ (if ?b then _ else _) => destruct b
      | |- preserved _ (match ?x with _ => _ end) => destruct x
      end
    | solve [auto with frames] ].

Create HintDb safe.
#[local] Hint Resolve nr_ret nr_get_self nr_print nr_issues_append
  nr_warnings_append nr_info_append : safe.

Ltac safe :=
  repeat first
    [ apply nr_bind; [|intros ?]
    | apply nr_for_each; intros ?
    | apply nr_try_except_all; intros ?
    | progress cbv zeta
    | match goal with
      | |- never_raises (if ?b then _ else _) => destruct b
      | |- never_raises (match ?x with _ => _ end) => destruct x
      end
    | solve [auto with safe] ].

(** ** The markup check on any file *)

Lemma iw_check_single_xaml_file (w : World) (xaml_file : Path) :
  preserved extends_issues_warnings (check_single_xaml_file w xaml_file).
Proof.
  unfold check_single_xaml_file, check_typos, check_unsupported_props,
    check_xclass, get_expected_class_name.
  frame extends_iw_refl extends_iw_trans.
Qed.

(** X1. Whatever the file and the tree, the markup check of one file
    returns normally and changes nothing but the issues and the
    warnings, to which it only appends: notes, output and project path
    stay as they were. *)
Theorem check_single_xaml_file_contained (w : World) (xaml_file : Path)
        (st : State) :
  exists i wn,
    check_single_xaml_file w xaml_file st
    = (Return tt, add_findings i wn [] [] st).
Proof.
  destruct (iw_check_single_xaml_file w xaml_file st) as (i & wn & H).
  assert (Hret : never_raises (check_single_xaml_file w xaml_file)).
  { unfold check_single_xaml_file. safe. }
  destruct (Hret st) as [[] Ha].
  exists i, wn.
  destruct (check_single_xaml_file w xaml_file st) as [o st']; simpl in *.
  subst. reflexivity.
Qed.

(** X2. A markup file that cannot be read gets exactly one issue, which
    names the file and carries the text of the error; nothing else
    changes and the check returns normally. *)
Theorem check_single_xaml_file_read_error (w : World) (xaml_file : Path)
        (e : exn) (st : State) :
  read_text w xaml_file = Raise e ->
  check_single_xaml_file w xaml_file st
  = (Return tt,
     add_issues [name xaml_file ++ u ": Failed to read file - " ++ exn_str e]
                st).
Proof.
  intros Hread. unfold check_single_xaml_file, try_except, bind, lift.
  rewrite Hread. reflexivity.
Qed.

Lemma check_single_xaml_file_read_error_witness :
  check_single_xaml_file undecodable_world
                         (Path_of_str (u "/proj/App.axaml")) fresh
  = (Return tt,
     add_issues [name (Path_of_str (u "/proj/App.axaml"))
                   ++ u ": Failed to read file - " ++ exn_str decode_error]
                fresh).
Proof.
  apply (check_single_xaml_file_read_error
           undecodable_world (Path_of_str (u "/proj/App.axaml"))
           decode_error fresh).
  vm_compute; reflexivity.
Defined.

(** ** The expected class name *)

Lemma strip_parts_app (base rest : list str) :
  strip_parts base (base ++ rest) = Some rest.
Proof.
  induction base as [|b base IH]; simpl; [reflexivity|].
  rewrite eqb_refl. exact IH.
Qed.

Lemma join_cons (sep x : str) (l : list str) :
  l <> [] -> join sep (x :: l) = x ++ sep ++ join sep l.
Proof. destruct l; [congruence | reflexivity]. Qed.

Lemma join_snoc (sep x : str) (l : list str) :
  l <> [] -> join sep (l ++ [x]) = join sep l ++ sep ++ x.
Proof.
  induction l as [|y l IH]; intros Hne; [congruence|].
  destruct l as [|z l].
  - reflexivity.
  - change ((y :: z :: l) ++ [x]) with (y :: ((z :: l) ++ [x])).
    rewrite join_cons by (destruct l; discriminate).
    rewrite IH by discriminate.
    rewrite (join_cons sep y (z :: l)) by discriminate.
    rewrite <- !app_assoc. reflexivity.
Qed.

Lemma expected_class_name_eq (xaml_file : Path) (st : State)
        (dirs : list str) (nm : str) :
  below (project_path (self st)) xaml_file dirs nm ->
  get_expected_class_name xaml_file st
  = (Return (join [dot] (u "JobFinderApp.Desktop" :: dirs ++ [stem xaml_file])),
     st).
Proof.
  intros [Habs Hparts]. unfold get_expected_class_name.
  unfold bind at 1. unfold get_self at 1.
  unfold bind at 1. unfold lift, relative_to.
  rewrite Habs, Hparts, strip_parts_app.
  replace (Bool.eqb (absolute (project_path (self st)))
                    (absolute (project_path (self st)))) with true
    by (destruct (absolute (project_path (self st))); reflexivity).
  rewrite removelast_last. unfold ret. f_equal. f_equal.
  destruct dirs as [|d dirs].
  - reflexivity.
  - cbn [nonempty].
    rewrite (join_cons [dot] (u "JobFinderApp.Desktop")
                       ((d :: dirs) ++ [stem xaml_file]))
      by (simpl; discriminate).
    rewrite join_snoc by discriminate.
    change (u "JobFinderApp.Desktop.") with (u "JobFinderApp.Desktop" ++ [dot]).
    change (u ".") with [dot].
    rewrite <- !app_assoc. reflexivity.
Qed.

(** X3. For a file below the project path the expected class name is the
    dotted name made of the fixed namespace, the folders between the
    project path and the file, and the stem of the file; the method
    returns it without raising and without changing the state. *)
Theorem get_expected_class_name_below (xaml_file : Path) (st : State)
        (dirs : list str) (nm : str) :
  below (project_path (self st)) xaml_file dirs nm ->
  get_expected_class_name xaml_file st
  = (Return (join [dot] (u "JobFinderApp.Desktop" :: dirs ++ [stem xaml_file])),
     st).
Proof. exact (expected_class_name_eq xaml_file st dirs nm). Qed.

Lemma get_expected_class_name_below_witness :
  get_expected_class_name (Path_of_str (u "/proj/Views/Main.axaml")) fresh
  = (Return (join [dot] (u "JobFinderApp.Desktop"
                           :: [u "Views"]
                           ++ [stem (Path_of_str (u "/proj/Views/Main.axaml"))])),
     fresh).
Proof.
  apply (get_expected_class_name_below
           (Path_of_str (u "/proj/Views/Main.axaml")) fresh
           [u "Views"] (u "Main.axaml")).
  split; reflexivity.
Defined.

(** ** The files enumerated by [rglob] *)

Lemma node_nested_ind (P : node -> Prop) :
  (forall t x, P (File t x)) ->
  (forall es, Forall (fun p => P (snd p)) es -> P (Dir es)) ->
  forall n, P n.
Proof.
  intros HF HD. fix IH 1. intros [t x|es]; [apply HF|]. apply HD.
  induction es as [|[nm c] es IHes];
    [constructor | constructor; [apply IH | exact IHes]].
Qed.

Lemma rglob_node_Dir (pat : str) (here : Path) (es : list (str * node)) :
  rglob_node pat here (Dir es)
  = map (child here) (filter (fnmatch pat) (map fst es))
    ++ flat_map (fun p => rglob_node pat (child here (fst p)) (snd p)) es.
Proof.
  simpl. f_equal. induction es as [|[nm c] es IH]; [reflexivity|].
  simpl. rewrite IH. reflexivity.
Qed.

(** Every path [rglob] yields lies below the starting directory and its
    last component matches the pattern. *)
Lemma rglob_node_below (pat : str) (n : node) :
  forall here f,
    In f (rglob_node pat here n) ->
    exists dirs nm, below here f dirs nm /\ fnmatch pat nm = true.
Proof.
  induction n as [t x|es IH] using node_nested_ind; intros here f Hf.
  - destruct Hf.
  - rewrite rglob_node_Dir in Hf. apply in_app_or in Hf as [Hf|Hf].
    + apply in_map_iff in Hf as (nm & <- & Hnm).
      apply filter_In in Hnm as [_ Hm].
      exists [], nm. split; [split; reflexivity | exact Hm].
    + apply in_flat_map in Hf as ([nm c] & Hin & Hf). simpl in Hf.
      rewrite Forall_forall in IH.
      destruct (IH (nm, c) Hin (child here nm) f Hf)
        as (dirs & x & [Habs Hparts] & Hm).
      exists (nm :: dirs), x. split; [|exact Hm].
      split; [exact Habs|]. rewrite Hparts. simpl.
      rewrite <- app_assoc. reflexivity.
Qed.

Lemma rglob_below (w : World) (pp : Path) (pat : str) (f : Path) :
  In f (rglob w pp pat) ->
  exists dirs nm, below pp f dirs nm /\ fnmatch pat nm = true.
Proof.
  unfold rglob. destruct (Path_stat w pp) as [n|]; [|intros []].
  apply rglob_node_below.
Qed.

(** ** The markup check on the files of the project *)

Lemma issues_append_eq (s : str) (st : State) :
  issues_append s st = (Return tt, add_findings [s] [] [] [] st).
Proof.
  unfold issues_append, add_findings. rewrite !app_nil_r. reflexivity.
Qed.

Lemma warnings_append_eq (s : str) (st : State) :
  warnings_append s st = (Return tt, add_findings [] [s] [] [] st).
Proof.
  unfold warnings_append, add_findings. rewrite !app_nil_r. reflexivity.
Qed.

Lemma info_append_eq (s : str) (st : State) :
  info_append s st = (Return tt, add_findings [] [] [s] [] st).
Proof.
  unfold info_append, add_findings. rewrite !app_nil_r. reflexivity.
Qed.

Lemma print_eq (s : str) (st : State) :
  print s st = (Return tt, add_findings [] [] [] (s ++ [nl]) st).
Proof.
  unfold print, add_findings. rewrite !app_nil_r.
  destruct st as [[pp i wn n] o]; reflexivity.
Qed.

Lemma add_issues_findings (l : list str) (st : State) :
  add_issues l st = add_findings l [] [] [] st.
Proof. unfold add_issues, add_findings. rewrite !app_nil_r. reflexivity. Qed.

Lemma ret_eq (st : State) : ret tt st = (Return tt, add_findings [] [] [] [] st).
Proof. rewrite add_findings_nil. reflexivity. Qed.

(** Below the project path the [x:Class] comparison returns and at most
    appends one warning. *)
Lemma check_xclass_below (xaml_file : Path) (content : str) (st : State)
      (dirs : list str) (nm : str) :
  below (project_path (self st)) xaml_file dirs nm ->
  exists wn, check_xclass xaml_file content st
             = (Return tt, add_findings [] wn [] [] st).
Proof.
  intros Hb. unfold check_xclass.
  destruct (Re.re_search xclass_pattern content) as [[g r]|];
    [|exists []; apply ret_eq].
  unfold bind. rewrite (expected_class_name_eq _ _ _ _ Hb).
  match goal with
  | |- context [if ?b then _ else _] => destruct b
  end.
  - eexists; apply warnings_append_eq.
  - exists []; apply ret_eq.
Qed.

(** The whole check of a file below the project path. *)
Lemma check_single_xaml_file_below_eq (w : World) (xaml_file : Path)
      (st : State) (dirs : list str) (nm : str) :
  below (project_path (self st)) xaml_file dirs nm ->
  exists wn,
    check_single_xaml_file w xaml_file st
    = (Return tt,
       add_findings (xaml_issues (name xaml_file) (read_text w xaml_file))
                    wn [] [] st).
Proof.
  intros Hb. unfold check_single_xaml_file, try_except.
  unfold bind at 1. unfold lift at 1.
  destruct (read_text w xaml_file) as [content|e]; cbn [xaml_issues].
  - destruct (is_empty (strip content));
      [exists []; rewrite issues_append_eq; reflexivity|].
    destruct (negb (startswith (u "<") (strip content)));
      [exists []; rewrite issues_append_eq; reflexivity|].
    unfold bind at 1. rewrite check_typos_spec.
    unfold bind at 1. rewrite check_unsupported_props_spec.
    fold (unsupported_issues (name xaml_file) content).
    destruct (check_xclass_below xaml_file content
                (add_issues (unsupported_issues (name xaml_file) content)
                   (add_issues (typo_issues (name xaml_file) content) st))
                dirs nm Hb) as [wn ->].
    exists wn. rewrite !add_issues_findings, !add_findings_app.
    rewrite !app_nil_r. reflexivity.
  - exists []. simpl. rewrite issues_append_eq. reflexivity.
Qed.

(** A loop whose body only appends appends everything, in order. *)
Lemma for_each_add_findings {A} (gi gw gn : A -> list str) (go : A -> str)
      (body : A -> M unit) :
  (forall x st, body x st
                = (Return tt, add_findings (gi x) (gw x) (gn x) (go x) st)) ->
  forall l st,
    for_each l body st
    = (Return tt,
       add_findings (flat_map gi l) (flat_map gw l) (flat_map gn l)
                    (flat_map go l) st).
Proof.
  intros Hbody; induction l as [|x l IH]; intros st.
  - apply ret_eq.
  - simpl. unfold bind. rewrite Hbody, IH, add_findings_app. reflexivity.
Qed.

Lemma xaml_loop (w : World) (l : list Path) :
  forall st,
    (forall f, In f l ->
               exists dirs nm, below (project_path (self st)) f dirs nm) ->
    exists wn,
      for_each l (check_single_xaml_file w) st
      = (Return tt,
         add_findings
           (flat_map (fun f => xaml_issues (name f) (read_text w f)) l)
           wn [] [] st).
Proof.
  induction l as [|f l IH]; intros st Hb.
  - exists []. apply ret_eq.
  - destruct (Hb f (or_introl eq_refl)) as (dirs & nm & Hf).
    destruct (check_single_xaml_file_below_eq w f st dirs nm Hf) as [w1 E1].
    destruct (IH (add_findings (xaml_issues (name f) (read_text w f))
                               w1 [] [] st)) as [w2 E2].
    { intros g Hg. exact (Hb g (or_intror Hg)). }
    exists (w1 ++ w2). simpl. unfold bind. rewrite E1, E2.
    rewrite add_findings_app. reflexivity.
Qed.

Lemma flat_map_length_le {A B} (f : A -> list B) (k : nat) (l : list A) :
  (forall x, length (f x) <= k) -> length (flat_map f l) <= k * length l.
Proof.
  intros H; induction l as [|x l IH]; simpl; [lia|].
  rewrite length_app. specialize (H x). lia.
Qed.

Lemma typo_issues_length (file content : str) :
  length (typo_issues file content) <= 3.
Proof.
  unfold typo_issues.
  apply (flat_map_length_le _ 1 typos).
  intros [typo correct]. destruct (contains typo content); simpl; lia.
Qed.

Lemma unsupported_issues_length (file content : str) :
  length (unsupported_issues file content) <= 3.
Proof.
  unfold unsupported_issues.
  apply (flat_map_length_le _ 1 unsupported_props).
  intros prop.
  destruct (is_Some (Re.re_search (stackpanel_pattern prop) content));
    simpl; lia.
Qed.

Lemma xaml_issues_length (file : str) (r : outcome str) :
  length (xaml_issues file r) <= 6.
Proof.
  destruct r as [content|e]; cbn [xaml_issues]; [|simpl; lia].
  destruct (is_empty (strip content)); [simpl; lia|].
  destruct (negb (startswith (u "<") (strip content))); [simpl; lia|].
  rewrite length_app.
  pose proof (typo_issues_length file content).
  pose proof (unsupported_issues_length file content). lia.
Qed.

(** X4. The markup check of the project returns normally on every tree.
    It prints its heading, adds one note with the number of markup files
    found, and its issues are those of the files in the order of the
    enumeration, each file contributing what its name and its text (or
    read error) determine and never more than six issues. *)
Theorem check_xaml_files_findings (w : World) (st : State) :
  let xaml_files := rglob w (project_path (self st)) (u "*.axaml") in
  exists wn,
    check_xaml_files w st
    = (Return tt,
       add_findings
         (flat_map (fun f => xaml_issues (name f) (read_text w f)) xaml_files)
         wn
         [u "Found " ++ str_of_nat (length xaml_files) ++ u " XAML files"]
         ((0x1F4C4%N :: u " Checking XAML files...") ++ [nl])
         st)
    /\ length (flat_map (fun f => xaml_issues (name f) (read_text w f))
                        xaml_files)
       <= 6 * length xaml_files.
Proof.
  cbv zeta. unfold check_xaml_files.
  unfold bind at 1. rewrite print_eq.
  unfold bind at 1. unfold get_self at 1.
  unfold bind at 1. rewrite info_append_eq. cbn [add_findings self project_path].
  match goal with
  | |- context [for_each ?l (check_single_xaml_file w) ?s] =>
      destruct (xaml_loop w l s) as [wn E]
  end.
  { intros f Hf. apply rglob_below in Hf as (dirs & nm & Hb & _).
    exists dirs, nm. exact Hb. }
  exists wn. split.
  - rewrite E. unfold add_findings. simpl. rewrite !app_nil_r. reflexivity.
  - apply flat_map_length_le. intros f. apply xaml_issues_length.
Qed.

(** ** The line-number lookup *)

Lemma find_line_from_le (term : str) (lines : list str) (i : nat) :
  find_line_from i lines term <= i + length lines.
Proof.
  revert i; induction lines as [|l lines IH]; intros i; simpl; [lia|].
  destruct (contains term l); [lia|]. specialize (IH (S i)). lia.
Qed.

(** X5. For a search term without line feed, the lookup answers 0
    exactly when the term does not occur in the text, and otherwise a
    line number between 1 and the number of lines. *)
Theorem find_line_number_agrees_with_in (content term : str) :
  ~ In nl term ->
  (find_line_number content term = 0 <-> contains term content = false)
  /\ (contains term content = true ->
      1 <= find_line_number content term <= length (split nl content)).
Proof.
  intros Hnl. split; [split|].
  - intros H0. destruct (contains term content) eqn:E; [|reflexivity].
    pose proof (contains_in_some_line term content Hnl E) as Hex.
    pose proof (proj1 (find_line_from_found term (split nl content) 1 Hex)).
    unfold find_line_number in H0. lia.
  - apply find_line_number_absent.
  - intros E. unfold find_line_number. split.
    + exact (proj1 (find_line_from_found term (split nl content) 1
                      (contains_in_some_line term content Hnl E))).
    + pose proof (find_line_from_le term (split nl content) 1).
      destruct (find_line_from_spec term (split nl content) 1)
        as [[H0 _]|(k & line & Hk & Hn & _)]; [lia|].
      assert (Hlt : k < length (split nl content))
        by (apply nth_error_Some; rewrite Hn; discriminate).
      lia.
Qed.

Lemma find_line_number_agrees_with_in_witness :
  (find_line_number typo_content (u "ColumnDefinin") = 0
   <-> contains (u "ColumnDefinin") typo_content = false)
  /\ (contains (u "ColumnDefinin") typo_content = true ->
      1 <= find_line_number typo_content (u "ColumnDefinin")
        <= length (split nl typo_content)).
Proof.
  apply (find_line_number_agrees_with_in typo_content (u "ColumnDefinin")).
  vm_compute. intros H.
  repeat (destruct H as [H|H]; [discriminate|]). exact H.
Defined.

Lemma startswith_incl (t s : str) :
  startswith t s = true -> forall c, In c t -> In c s.
Proof.
  revert s; induction t as [|x t IH]; intros s H c Hc; [destruct Hc|].
  destruct s as [|y s]; [discriminate|].
  simpl in H. apply andb_true_iff in H as [Hxy Ht].
  apply N.eqb_eq in Hxy; subst y.
  destruct Hc as [<-|Hc]; [left; reflexivity | right; exact (IH s Ht c Hc)].
Qed.

Lemma contains_incl (t s : str) :
  contains t s = true -> forall c, In c t -> In c s.
Proof.
  induction s as [|y s IH]; intros H c Hc.
  - apply contains_nil_r in H; subst t. destruct Hc.
  - simpl in H. apply orb_true_iff in H as [H|H].
    + exact (startswith_incl _ _ H c Hc).
    + right. exact (IH H c Hc).
Qed.

(** No line of a text holds a line feed. *)
Lemma split_lines_have_no_sep (sep : char) (s : str) :
  forall l, In l (split sep s) -> ~ In sep l.
Proof.
  induction s as [|c s IH]; intros l Hl.
  - destruct Hl as [<-|[]]. intros [].
  - simpl in Hl. destruct (N.eqb c sep) eqn:Hc.
    + destruct Hl as [<-|Hl]; [intros [] | exact (IH l Hl)].
    + destruct (split sep s) as [|l0 ls] eqn:E;
        [exfalso; exact (split_not_nil _ _ E)|].
      destruct Hl as [<-|Hl].
      * intros [->|H]; [rewrite N.eqb_refl in Hc; discriminate|].
        exact (IH l0 (or_introl eq_refl) H).
      * exact (IH l (or_intror Hl)).
Qed.

(** X6. A search term that holds a line feed is never found: the lookup
    answers 0 even when the term occurs in the text, because it is looked
    for in one line at a time. *)
Theorem find_line_number_multiline_term (content term : str) :
  In nl term -> find_line_number content term = 0.
Proof.
  intros Hnl. unfold find_line_number.
  destruct (find_line_from_spec term (split nl content) 1)
    as [[H0 _]|(k & line & _ & Hn & Hc & _)]; [exact H0|].
  apply nth_error_In in Hn.
  exfalso. apply (split_lines_have_no_sep nl content line Hn).
  exact (contains_incl term line Hc nl Hnl).
Qed.

Lemma find_line_number_multiline_term_witness :
  contains (u "<Grid>" ++ [nl] ++ u "  <Grid") typo_content = true
  /\ find_line_number typo_content (u "<Grid>" ++ [nl] ++ u "  <Grid") = 0.
Proof.
  split; [vm_compute; reflexivity|].
  apply (find_line_number_multiline_term
           typo_content (u "<Grid>" ++ [nl] ++ u "  <Grid")).
  vm_compute. right; right; right; right; right; right; left; reflexivity.
Defined.

(** ** The structure check on any tree *)

Lemma add_findings_ext (i i' wn wn' n n' : list str) (o o' : str)
      (st : State) :
  i = i' -> wn = wn' -> n = n' -> o = o' ->
  add_findings i wn n o st = add_findings i' wn' n' o' st.
Proof. intros; subst; reflexivity. Qed.

(** Equal lists up to the unit and associativity of [++]. *)
Ltac lists :=
  cbn [app]; repeat rewrite app_nil_r; repeat rewrite <- app_assoc;
  cbn [app]; reflexivity.

(** The same for the final states of two runs. *)
Ltac same_state :=
  f_equal; rewrite ?add_findings_app; apply add_findings_ext; lists.


(** ** The descriptor check on any tree *)

Lemma ext_check_csproj_file (w : World) :
  preserved extends (check_csproj_file w).
Proof.
  unfold check_csproj_file. frame extends_refl extends_trans.
Qed.

Lemma csproj_body_returns (root : ET.Element) (st : State) :
  exists st',
    ((if nonempty (avalonia_packages_of root) then
        bind (info_append (u "Avalonia packages:"))
             (fun _ => for_each (avalonia_packages_of root)
                                (fun pkg => info_append (u "  - " ++ pkg)))
      else issues_append no_packages_msg) ;;
     match ET.find_descendant root (u "UseAvalonia") with
     | None =>
         warnings_append (u "UseAvalonia property not found in project file")
     | Some use_avalonia =>
         match ET.text use_avalonia with
         | Some t =>
             if eqb t (u "true") then ret tt
             else issues_append (u "UseAvalonia property is not set to true")
         | None =>
             issues_append (u "UseAvalonia property is not set to true")
         end
     end)%py st
    = (Return tt, st').
Proof.
  assert (H : never_raises
                ((if nonempty (avalonia_packages_of root) then
                    bind (info_append (u "Avalonia packages:"))
                         (fun _ => for_each (avalonia_packages_of root)
                                     (fun pkg => info_append (u "  - " ++ pkg)))
                  else issues_append no_packages_msg) ;;
                 match ET.find_descendant root (u "UseAvalonia") with
                 | None =>
                     warnings_append
                       (u "UseAvalonia property not found in project file")
                 | Some use_avalonia =>
                     match ET.text use_avalonia with
                     | Some t =>
                         if eqb t (u "true") then ret tt
                         else issues_append
                                (u "UseAvalonia property is not set to true")
                     | None =>
                         issues_append
                           (u "UseAvalonia property is not set to true")
                     end
                 end)%py) by safe.
  destruct (H st) as [[] Ha].
  match goal with
  | |- exists st', ?m st = _ => destruct (m st) as [o st']
  end.
  simpl in Ha; subst. eexists; reflexivity.
Qed.

Lemma check_csproj_file_fst (w : World) (st : State) :
  fst (check_csproj_file w st) = csproj_outcome w (project_path (self st)).
Proof.
  unfold check_csproj_file, csproj_outcome.
  unfold bind at 1. rewrite print_eq.
  unfold bind at 1. unfold get_self at 1. cbn [add_findings self project_path].
  destruct (glob w (project_path (self st)) (u "*.csproj")) as [|p others];
    [reflexivity|].
  unfold try_except. unfold bind at 1. unfold lift at 1.
  destruct (ET_parse w p) as [root|e].
  - match goal with
    | |- context [(?m ;; ?k)%py ?s] =>
        destruct (csproj_body_returns root s) as [st' E]
    end.
    cbv zeta. rewrite E. reflexivity.
  - destruct (is_ParseError e); reflexivity.
Qed.

(** X8. The descriptor check raises in one case only: a descriptor was
    found and [ET.parse] failed with an error that is not a parse error;
    that error leaves the check unchanged.  Without descriptor, on a
    parse error and on every parsed descriptor it returns normally.  In
    all cases it only appends to the findings and the output. *)
Theorem check_csproj_file_outcome (w : World) (st : State) :
  fst (check_csproj_file w st) = csproj_outcome w (project_path (self st))
  /\ extends st (snd (check_csproj_file w st)).
Proof.
  split; [apply check_csproj_file_fst | apply ext_check_csproj_file].
Qed.

(** X9. A descriptor that is not well-formed XML yields exactly one
    issue, carrying the text of the parse error; the check returns
    normally and adds no other finding. *)
Theorem check_csproj_file_parse_error
        (w : World) (st : State) (csproj_path : Path) (others : list Path)
        (msg : str) :
  glob w (project_path (self st)) (u "*.csproj") = csproj_path :: others ->
  ET_parse w csproj_path = Raise (ParseError msg) ->
  check_csproj_file w st
  = (Return tt,
     add_findings [u "Failed to parse .csproj file: " ++ msg] [] []
                  ((0x1F527%N :: u " Checking project file...") ++ [nl]) st).
Proof.
  intros Hglob Hparse. unfold check_csproj_file.
  unfold bind at 1. rewrite print_eq.
  unfold bind at 1. unfold get_self at 1. cbn [add_findings self project_path].
  rewrite Hglob. unfold try_except. unfold bind at 1. unfold lift at 1.
  rewrite Hparse. cbn [is_ParseError exn_str]. rewrite issues_append_eq.
  fold (add_findings [] [] []
          ((0x1F527%N :: u " Checking project file...") ++ [nl]) st).
  same_state.
Qed.

Lemma check_csproj_file_parse_error_witness :
  check_csproj_file malformed_world fresh
  = (Return tt,
     add_findings
       [u "Failed to parse .csproj file: "
          ++ u "no element found: line 1, column 9"] [] []
       ((0x1F527%N :: u " Checking project file...") ++ [nl]) fresh).
Proof.
  apply (check_csproj_file_parse_error
           malformed_world fresh
           (child (Path_of_str proj) (u "App.csproj")) []
           (u "no element found: line 1, column 9")).
  - vm_compute; reflexivity.
  - vm_compute; reflexivity.
Defined.


Lemma flat_map_const_nil {A B} (l : list A) :
  flat_map (fun _ => @nil B) l = [].
Proof. induction l as [|x l IH]; simpl; [reflexivity | exact IH]. Qed.




(** ** The resource check on any tree *)






(** ** The application file check on any tree *)


Lemma ext_check_app_files (w : World) : preserved extends (check_app_files w).
Proof.
  unfold check_app_files, check_app_xaml, check_app_cs.
  frame extends_refl extends_trans.
Qed.


(** ** The build artifact check on any tree *)


(** ** The report *)

Lemma print_group_eq (mark : str) (title : string) (l : list str)
      (st : State) :
  print_group mark title l st
  = (Return tt, add_findings [] [] [] (group_text mark title l) st).
Proof.
  unfold print_group, group_text. destruct (nonempty l); [|apply ret_eq].
  unfold bind. rewrite print_eq.
  rewrite (for_each_add_findings
             (fun _ => []) (fun _ => []) (fun _ => [])
             (fun '(i, x) => (u "   " ++ str_of_nat i ++ u ". " ++ x) ++ [nl]))
    by (intros [i x] s; apply print_eq).
  rewrite !flat_map_const_nil. same_state.
Qed.

Lemma print_results_eq (st : State) :
  print_results st
  = (Return tt,
     add_findings [] [] []
       (report_text (issues (self st)) (warnings (self st)) (info (self st)))
       st).
Proof.
  unfold print_results, report_text.
  unfold bind at 1. rewrite print_eq.
  unfold bind at 1. rewrite print_eq.
  unfold bind at 1. rewrite print_eq.
  unfold bind at 1. unfold get_self at 1.
  cbn [add_findings self issues warnings info].
  rewrite !app_nil_r.
  unfold bind at 1. rewrite print_group_eq.
  unfold bind at 1. rewrite print_group_eq.
  unfold bind at 1. rewrite print_group_eq.
  unfold bind at 1. rewrite print_eq.
  unfold bind at 1. rewrite print_eq.
  destruct (nonempty (issues (self st))).
  - unfold bind at 1. rewrite print_eq.
    unfold bind at 1. rewrite print_eq.
    unfold bind at 1. rewrite print_eq.
    unfold bind at 1. rewrite print_eq.
    rewrite print_eq.
    f_equal. rewrite !add_findings_app. reflexivity.
  - rewrite ret_eq.
    f_equal. rewrite !add_findings_app. reflexivity.
Qed.

(** X15. Printing the report returns normally, leaves the analyzer as it
    is, and what it prints is decided by the three sequences of findings
    alone: two analyzers with the same findings, whatever their project
    path and whatever was printed before, get the same text appended. *)
Theorem print_results_depends_on_findings (st1 st2 : State) :
  issues (self st1) = issues (self st2) ->
  warnings (self st1) = warnings (self st2) ->
  info (self st1) = info (self st2) ->
  exists text,
    print_results st1 = (Return tt, add_findings [] [] [] text st1)
    /\ print_results st2 = (Return tt, add_findings [] [] [] text st2).
Proof.
  intros Hi Hw Hn.
  exists (report_text (issues (self st1)) (warnings (self st1))
                      (info (self st1))).
  split; [apply print_results_eq|].
  rewrite Hi, Hw, Hn. apply print_results_eq.
Qed.

Lemma print_results_depends_on_findings_witness :
  exists text,
    print_results fresh = (Return tt, add_findings [] [] [] text fresh)
    /\ print_results {| self := init (u "/elsewhere");
                        stdout := u "printed before" |}
       = (Return tt,
          add_findings [] [] [] text
            {| self := init (u "/elsewhere"); stdout := u "printed before" |}).
Proof.
  apply (print_results_depends_on_findings
           fresh
           {| self := init (u "/elsewhere"); stdout := u "printed before" |});
    reflexivity.
Defined.

(** ** The whole analysis *)



Lemma ext_check_project_structure (w : World) :
  preserved extends (check_project_structure w).
Proof.
  unfold check_project_structure. frame extends_refl extends_trans.
Qed.


Lemma ext_check_xaml_files (w : World) : preserved extends (check_xaml_files w).
Proof.
  unfold check_xaml_files, check_single_xaml_file, check_typos,
    check_unsupported_props, check_xclass, get_expected_class_name.
  frame extends_refl extends_trans.
Qed.


Lemma ext_check_resources (w : World) : preserved extends (check_resources w).
Proof. unfold check_resources. frame extends_refl extends_trans. Qed.


Lemma ext_check_build_artifacts (w : World) :
  preserved extends (check_build_artifacts w).
Proof. unfold check_build_artifacts. frame extends_refl extends_trans. Qed.


Lemma ext_print_results : preserved extends print_results.
Proof.
  intros st. rewrite print_results_eq. do 4 eexists; reflexivity.
Qed.

Lemma ext_analyze (w : World) : preserved extends (analyze w).
Proof.
  unfold analyze.
  apply (preserved_bind _ extends_trans); [apply ext_print | intros _].
  apply (preserved_bind _ extends_trans); [apply ext_print | intros _].
  apply (preserved_bind _ extends_trans);
    [apply ext_check_project_structure | intros _].
  apply (preserved_bind _ extends_trans);
    [apply ext_check_csproj_file | intros _].
  apply (preserved_bind _ extends_trans);
    [apply ext_check_xaml_files | intros _].
  apply (preserved_bind _ extends_trans);
    [apply ext_check_resources | intros _].
  apply (preserved_bind _ extends_trans);
    [apply ext_check_app_files | intros _].
  apply (preserved_bind _ extends_trans);
    [apply ext_check_build_artifacts | intros _].
  apply ext_print_results.
Qed.

(** X16. Whether it returns or raises, [analyze] only appends: the
    findings the analyzer held before are still there, in place and in
    order, in front of the new ones, the earlier output is a prefix of
    the output, and the project path is the same. *)
Theorem analyze_only_appends (w : World) (st : State) :
  exists i wn n o, snd (analyze w st) = add_findings i wn n o st.
Proof. exact (ext_analyze w st). Qed.



(** ** What the unsupported-attribute search finds *)

Lemma compile_stackpanel_pattern (prop : str) :
  In prop unsupported_props ->
  Re.compile (stackpanel_pattern prop) = Some (stackpanel_re prop).
Proof.
  intros [<-|[<-|[<-|[]]]]; vm_compute; reflexivity.
Qed.


(** A literal text matches only where the text starts with it. *)
Lemma match_here_literal_inv {A} (t : str) (p : Re.pattern)
      (k : option str -> str -> option A) (g : option str) (s : str) :
  Re.match_here (map (fun c => Re.Lit [c]) t ++ p) k g s <> None ->
  startswith t s = true.
Proof.
  revert s; induction t as [|c t IH]; intros s H; [reflexivity|].
  destruct s as [|x s]; [exfalso; apply H; reflexivity|].
  simpl in H |- *. destruct (N.eqb c x); [|exfalso; apply H; reflexivity].
  apply IH. exact H.
Qed.



(** A match of the search begins with the leading literal of the
    pattern. *)
Lemma search_contains (p : Re.pattern) (t s : str) :
  (forall s', Re.match_at p s' <> None -> startswith t s' = true) ->
  Re.search p s <> None -> contains t s = true.
Proof.
  intros Hp. induction s as [|c s IH]; intros H.
  - simpl in H. destruct (Re.match_at p []) eqn:E; [|contradiction].
    apply startswith_contains. apply Hp. rewrite E; discriminate.
  - simpl in H. destruct (Re.match_at p (c :: s)) eqn:E.
    + apply startswith_contains. apply Hp. rewrite E; discriminate.
    + change (contains t (c :: s))
        with (startswith t (c :: s) || contains t s).
      rewrite (IH H). apply orb_true_r.
Qed.




(** X19. A text without [<StackPanel] gets no issue from the
    unsupported-attribute scan, whatever attributes its other elements
    carry: the scan returns with the state unchanged. *)
Theorem no_stackpanel_no_unsupported_issue (file content : str) (st : State) :
  contains (u "<StackPanel") content = false ->
  check_unsupported_props file content st = (Return tt, st).
Proof.
  intros Hno. rewrite check_unsupported_props_spec.
  rewrite (flat_map_nil _ unsupported_props).
  - rewrite add_issues_findings, add_findings_nil. reflexivity.
  - intros prop Hprop.
    assert (Hs : Re.re_search (stackpanel_pattern prop) content = None).
    { unfold Re.re_search. rewrite (compile_stackpanel_pattern prop Hprop).
      destruct (Re.search (stackpanel_re prop) content) eqn:E;
        [|reflexivity].
      rewrite (search_contains (stackpanel_re prop) (u "<StackPanel") content)
        in Hno; [discriminate| |rewrite E; discriminate].
      intros s' Hm. unfold Re.match_at, stackpanel_re in Hm.
      exact (match_here_literal_inv _ _ _ _ _ Hm). }
    rewrite Hs. reflexivity.
Qed.

Lemma no_stackpanel_no_unsupported_issue_witness :
  check_unsupported_props (u "Main.axaml")
                          (u "<Border Padding='4'><Grid RowGap='2'/></Border>")
                          fresh
  = (Return tt, fresh).
Proof.
  apply (no_stackpanel_no_unsupported_issue
           (u "Main.axaml")
           (u "<Border Padding='4'><Grid RowGap='2'/></Border>") fresh).
  vm_compute; reflexivity.
Defined.
